(** * consul acl binding-rule update

    A shallow embedding of [command/acl/bindingrule/update/bindingrule_update.go]
    and the properties of its resolve, fetch, plan, submit pipeline.

    The command value [cmd] carries the variables the flag set writes into;
    the records reached through Go pointers live in an explicit heap so that
    [rule = currentRule] is an alias and the struct literal of the no-merge
    branch is a new object.  The user interface and the calls to the remote
    store are recorded in a [world] that is threaded through [Run]. *)

From stdpp Require Import gmap strings list fin_maps.
From Stdlib Require Import ZArith.

Open Scope string_scope.

(** ** The api package's record *)

(** Modelled from the spec: the type [api.ACLBindingRule] is declared in the
    api package, outside this command.  The spec's Record has an immutable
    [id], an immutable [providerRef] (the field the command calls [IDPName]),
    and the editable [description], [roleBindType], [roleName], [selector].
    [api.BindingRuleRoleBindType] is a string type, the command converts to it
    from the flag's string. *)
Record ACLBindingRule := mkRule {
  ID           : string;
  IDPName      : string;
  Description  : string;
  RoleBindType : string;
  RoleName     : string;
  Selector     : string
}.

(** Modelled from the spec: the constant [api.BindingRuleRoleBindTypeService],
    the default of [-role-bind-type], is ["service"]. *)
Definition BindingRuleRoleBindTypeService : string := "service".

(** Go's [error] values that reach this command.  The candidate source, the
    fetch and the update fail with a transport error; the resolver adds its
    two own kinds. *)
Inductive error :=
| TransportError (msg : string)
| NotFound (partialID : string)
| AmbiguousPrefix (partialID : string) (matches : list string).

(** ** Flags *)

(** [flag.FlagSet]: of its state only [actual], the flags that were set on the
    command line, is observed by the command (through [Visit]). *)
Record FlagSet := mkFlagSet { actual : gset string }.

(** The fields of [cmd] that [Run] reads.  [http] keeps the settings parsed
    for the flags merged in from [flags.HTTPFlags]. *)
Record cmd := mkCmd {
  flags        : FlagSet;
  http         : list (string * string);
  ruleID       : string;
  description  : string;
  selector     : string;
  roleBindType : string;
  roleName     : string;
  noMerge      : bool;
  showMeta     : bool
}.

(** [init]: every variable starts at the default its flag is registered with. *)
Definition init : cmd :=
  {| flags := mkFlagSet ∅;
     http := [];
     ruleID := "";
     description := "";
     selector := "";
     roleBindType := BindingRuleRoleBindTypeService;
     roleName := "";
     noMerge := false;
     showMeta := false |}.

(** The command line after tokenisation by the flag package: a string flag
    with its value, a boolean flag with its value, or text that [Parse]
    rejects. *)
Inductive arg :=
| StringArg (name value : string)
| BoolArg (name : string) (value : bool)
| BadArg (text : string).

Definition arg_name (a : arg) : option string :=
  match a with
  | StringArg name _ => Some name
  | BoolArg name _ => Some name
  | BadArg _ => None
  end.

(** [f.actual[name] = flag] *)
Definition mark (name : string) (fs : FlagSet) : FlagSet :=
  mkFlagSet ({[ name ]} ∪ actual fs).

Definition set_ruleID (v : string) (c : cmd) : cmd :=
  mkCmd (mark "id" (flags c)) (http c) v (description c) (selector c)
        (roleBindType c) (roleName c) (noMerge c) (showMeta c).
Definition set_description (v : string) (c : cmd) : cmd :=
  mkCmd (mark "description" (flags c)) (http c) (ruleID c) v (selector c)
        (roleBindType c) (roleName c) (noMerge c) (showMeta c).
Definition set_selector (v : string) (c : cmd) : cmd :=
  mkCmd (mark "selector" (flags c)) (http c) (ruleID c) (description c) v
        (roleBindType c) (roleName c) (noMerge c) (showMeta c).
Definition set_roleBindType (v : string) (c : cmd) : cmd :=
  mkCmd (mark "role-bind-type" (flags c)) (http c) (ruleID c) (description c)
        (selector c) v (roleName c) (noMerge c) (showMeta c).
Definition set_roleName (v : string) (c : cmd) : cmd :=
  mkCmd (mark "role-name" (flags c)) (http c) (ruleID c) (description c)
        (selector c) (roleBindType c) v (noMerge c) (showMeta c).
Definition set_noMerge (v : bool) (c : cmd) : cmd :=
  mkCmd (mark "no-merge" (flags c)) (http c) (ruleID c) (description c)
        (selector c) (roleBindType c) (roleName c) v (showMeta c).
Definition set_showMeta (v : bool) (c : cmd) : cmd :=
  mkCmd (mark "meta" (flags c)) (http c) (ruleID c) (description c)
        (selector c) (roleBindType c) (roleName c) (noMerge c) v.
Definition set_http (name v : string) (c : cmd) : cmd :=
  mkCmd (mark name (flags c)) (http c ++ [(name, v)]) (ruleID c) (description c)
        (selector c) (roleBindType c) (roleName c) (noMerge c) (showMeta c).

(** The names [init] registers itself, in the order of the source. *)
Definition own_flags : list string :=
  ["meta"; "id"; "description"; "selector"; "role-bind-type"; "role-name";
   "no-merge"].

Section Flags.

(** The names registered by [flags.Merge] from the client and server flags
    of [flags.HTTPFlags], a package outside this command. *)
Variable isHTTPFlag : string → bool.

(** One step of [flag.Parse]: look the name up among the registered flags,
    store the value in the variable the flag points to and enter the flag
    in [actual]; an unknown name or a value of the wrong kind is an error.
    The merged-in flags cannot reuse a name of [own_flags]. *)
Definition parseOne (c : cmd) (a : arg) : option cmd :=
  match a with
  | StringArg name v =>
      if String.eqb name "id" then Some (set_ruleID v c)
      else if String.eqb name "description" then Some (set_description v c)
      else if String.eqb name "selector" then Some (set_selector v c)
      else if String.eqb name "role-bind-type" then Some (set_roleBindType v c)
      else if String.eqb name "role-name" then Some (set_roleName v c)
      else if existsb (String.eqb name) own_flags then None
      else if isHTTPFlag name then Some (set_http name v c)
      else None
  | BoolArg name b =>
      if String.eqb name "meta" then Some (set_showMeta b c)
      else if String.eqb name "no-merge" then Some (set_noMerge b c)
      else if existsb (String.eqb name) own_flags then None
      else if isHTTPFlag name
           then Some (set_http name (if b then "true" else "false") c)
      else None
  | BadArg _ => None
  end.

Fixpoint parseFrom (c : cmd) (args : list arg) : option cmd :=
  match args with
  | [] => Some c
  | a :: rest =>
      match parseOne c a with
      | Some c' => parseFrom c' rest
      | None => None
      end
  end.

(** [c.flags.Parse(args)] on the command built by [New]. *)
Definition Parse (args : list arg) : option cmd := parseFrom init args.

End Flags.

(** [flags.Visit(fn)]: calls [fn] on every flag that has been set. *)
Definition Visit {A : Type} (fs : FlagSet) (fn : string → A → A) (a : A) : A :=
  set_fold fn a (actual fs).

(** [isFlagSet] *)
Definition isFlagSet (fs : FlagSet) (name : string) : bool :=
  Visit fs (λ f found, if String.eqb f name then true else found) false.

(** "Passed on this invocation": some argument of the command line names the
    flag. *)
Definition passed (name : string) (args : list arg) : Prop :=
  Some name ∈ arg_name <$> args.

(** The variable behind flag [n] has the same value in [c] and [c']. *)
Record kept (n : string) (c c' : cmd) : Prop := mkKept {
  keep_ruleID       : n = "id" → ruleID c' = ruleID c;
  keep_description  : n = "description" → description c' = description c;
  keep_selector     : n = "selector" → selector c' = selector c;
  keep_roleBindType : n = "role-bind-type" → roleBindType c' = roleBindType c;
  keep_roleName     : n = "role-name" → roleName c' = roleName c;
  keep_noMerge      : n = "no-merge" → noMerge c' = noMerge c
}.

(** ** The identifier resolver *)

(** Go's [strings.HasPrefix(s, prefix)], comparing bytes. *)
Definition HasPrefix (s pre : string) : bool := String.prefix pre s.

(** [pre] is a prefix of [s], character by character. *)
Definition is_prefix_of (pre s : string) : Prop := ∃ rest, s = pre +:+ rest.

(** Modelled from the spec: the resolver behind
    [acl.GetBindingRuleIDFromPartial], a helper of the acl command package
    that is not part of this file.  The spec: treat [partial] as a
    case-sensitive prefix; scan all known full identifiers; collect those with
    [partial] as a prefix; exactly one match is returned, zero matches fail
    with [NotFound], two or more fail with [AmbiguousPrefix], naming the
    colliding identifiers. *)
Definition resolve (partialID : string) (candidates : list string)
  : error + string :=
  match List.filter (λ id, HasPrefix id partialID) candidates with
  | [] => inl (NotFound partialID)
  | [id] => inr id
  | ms => inl (AmbiguousPrefix partialID ms)
  end.

(** ** The world of a run *)

(** Operands of a format string. *)
Inductive operand :=
| OpError (e : error)
| OpString (s : string).

(** What is handed to the user interface: [fmt.Sprintf] of a format and its
    operands, kept symbolic, or the usage text [c.Help()]. *)
Inductive text :=
| Sprintf (format : string) (operands : list operand)
| Usage.

(** [c.UI.Error], [c.UI.Info] and [acl.PrintBindingRule]. *)
Inductive ui_line :=
| UIError (t : text)
| UIInfo (t : text)
| UIRule (rule : ACLBindingRule) (meta : bool).

Definition loc := positive.

(** The lines printed so far, the records submitted to the store's update and
    the heap of binding-rule objects. *)
Record world := mkWorld {
  ui      : list ui_line;
  updates : list ACLBindingRule;
  heap    : gmap loc ACLBindingRule
}.

(** A statement continues with a value, leaves [Run] with an exit status, or
    dereferences a pointer that holds no object. *)
Inductive outcome (A : Type) :=
| Next (a : A)
| Return (code : Z)
| Panic.
Arguments Next {A} a.
Arguments Return {A} code.
Arguments Panic {A}.

Definition M (A : Type) : Type := world → world * outcome A.

#[global] Instance M_ret : MRet M := λ A a w, (w, Next a).

#[global] Instance M_bind : MBind M := λ A B k m w,
  match m w with
  | (w', Next a) => k a w'
  | (w', Return code) => (w', Return code)
  | (w', Panic) => (w', Panic)
  end.

Definition return_ {A : Type} (code : Z) : M A := λ w, (w, Return code).

Definition UI_Error (t : text) : M unit := λ w,
  (mkWorld (ui w ++ [UIError t]) (updates w) (heap w), Next tt).

Definition UI_Info (t : text) : M unit := λ w,
  (mkWorld (ui w ++ [UIInfo t]) (updates w) (heap w), Next tt).

Definition PrintBindingRule (rule : ACLBindingRule) (meta : bool) : M unit :=
  λ w, (mkWorld (ui w ++ [UIRule rule meta]) (updates w) (heap w), Next tt).

(** [&T{...}] and the object a decoded response is stored in. *)
Definition new (r : ACLBindingRule) : M loc := λ w,
  let l := fresh (dom (heap w)) in
  (mkWorld (ui w) (updates w) (<[l := r]> (heap w)), Next l).

(** [*p] *)
Definition load (p : loc) : M ACLBindingRule := λ w,
  match heap w !! p with
  | Some r => (w, Next r)
  | None => (w, Panic)
  end.

(** [p.f = v], with [upd] the update of field [f] *)
Definition store (p : loc) (upd : ACLBindingRule → ACLBindingRule) : M unit :=
  λ w,
  match heap w !! p with
  | Some r => (mkWorld (ui w) (updates w) (<[p := upd r]> (heap w)), Next tt)
  | None => (w, Panic)
  end.

Definition with_Description (v : string) (r : ACLBindingRule) :=
  mkRule (ID r) (IDPName r) v (RoleBindType r) (RoleName r) (Selector r).
Definition with_RoleName (v : string) (r : ACLBindingRule) :=
  mkRule (ID r) (IDPName r) (Description r) (RoleBindType r) v (Selector r).
Definition with_RoleBindType (v : string) (r : ACLBindingRule) :=
  mkRule (ID r) (IDPName r) (Description r) v (RoleName r) (Selector r).
Definition with_Selector (v : string) (r : ACLBindingRule) :=
  mkRule (ID r) (IDPName r) (Description r) (RoleBindType r) (RoleName r) v.

(** ** The collaborators *)

(** The remote store as the command sees it: the candidate source of the
    resolver, the fetch of one record ([BindingRuleRead], [None] for a nil
    record) and the update. *)
Record Client := mkClient {
  listFullIdentifiers : error + list string;
  BindingRuleRead     : string → error + option ACLBindingRule;
  BindingRuleUpdate   : ACLBindingRule → error + ACLBindingRule
}.

(** What lies outside the command: the names of the merged-in flags and the
    client [c.http.APIClient()] builds from their settings. *)
Record Env := mkEnv {
  isHTTPFlag : string → bool;
  APIClient  : list (string * string) → error + Client
}.

(** Modelled from the spec: [acl.GetBindingRuleIDFromPartial] asks the
    candidate source for the full identifiers and resolves the partial one
    against them; a failure of the candidate source is returned as it is. *)
Definition GetBindingRuleIDFromPartial (client : Client) (partialID : string)
  : error + string :=
  match listFullIdentifiers client with
  | inl err => inl err
  | inr candidates => resolve partialID candidates
  end.

(** A request body reaches the store's update. *)
Definition submit (r : ACLBindingRule) : M unit := λ w,
  (mkWorld (ui w) (updates w ++ [r]) (heap w), Next tt).

(** [client.ACL().BindingRuleUpdate(rule, nil)]: the record behind the pointer
    is sent to the store, which answers with a record or an error. *)
Definition callUpdate (client : Client) (rule : loc)
  : M (error + ACLBindingRule) :=
  r ← load rule;
  submit r;;
  mret (BindingRuleUpdate client r).

(** ** The command *)

(** Lines 129 to 161 of [Run]: the record to submit. *)
Definition planRule (c : cmd) (ruleID : string) (currentRule : loc) : M loc :=
  if noMerge c then
    if String.eqb (roleName c) "" then
      UI_Error (Sprintf "Missing required '-role-name' flag" []);;
      UI_Error Usage;;
      return_ 1
    else
      cur ← load currentRule;
      new {| ID := ruleID;
             IDPName := IDPName cur;
             Description := description c;
             RoleBindType := roleBindType c;
             RoleName := roleName c;
             Selector := selector c |}
  else
    let rule := currentRule in
    (if negb (String.eqb (description c) "")
     then store rule (with_Description (description c)) else mret tt);;
    (if negb (String.eqb (roleName c) "")
     then store rule (with_RoleName (roleName c)) else mret tt);;
    (if isFlagSet (flags c) "role-bind-type"
     then store rule (with_RoleBindType (roleBindType c)) else mret tt);;
    (if isFlagSet (flags c) "selector"
     then store rule (with_Selector (selector c)) else mret tt);;
    mret rule.

(** [Run] *)
Definition Run (env : Env) (args : list arg) : M Empty_set :=
  match Parse (isHTTPFlag env) args with
  | None => return_ 1
  | Some c =>
    if String.eqb (ruleID c) "" then
      UI_Error (Sprintf
        "Cannot update a binding rule without specifying the -id parameter" []);;
      return_ 1
    else
    match APIClient env (http c) with
    | inl err =>
      UI_Error (Sprintf "Error connecting to Consul agent: %s" [OpError err]);;
      return_ 1
    | inr client =>
    match GetBindingRuleIDFromPartial client (ruleID c) with
    | inl err =>
      UI_Error (Sprintf "Error determining binding rule ID: %v" [OpError err]);;
      return_ 1
    | inr ruleID =>
    match BindingRuleRead client ruleID with
    | inl err =>
      UI_Error (Sprintf "Error when retrieving current binding rule: %v"
                        [OpError err]);;
      return_ 1
    | inr None =>
      UI_Error (Sprintf "Binding rule not found with ID %q" [OpString ruleID]);;
      return_ 1
    | inr (Some current) =>
      currentRule ← new current;
      rule ← planRule c ruleID currentRule;
      res ← callUpdate client rule;
      match res with
      | inl err =>
        UI_Error (Sprintf "Error updating binding rule %q: %v"
                          [OpString ruleID; OpError err]);;
        return_ 1
      | inr rule =>
        UI_Info (Sprintf "Binding rule updated successfully" []);;
        PrintBindingRule rule (showMeta c);;
        return_ 0
      end
    end
    end
    end
  end.

(** ** The planned record as a value *)

(** The struct literal of the no-merge branch. *)
Definition overwritten (c : cmd) (ruleID : string) (cur : ACLBindingRule)
  : ACLBindingRule :=
  {| ID := ruleID;
     IDPName := IDPName cur;
     Description := description c;
     RoleBindType := roleBindType c;
     RoleName := roleName c;
     Selector := selector c |}.

(** The current record after the four guarded assignments of the merge
    branch. *)
Definition merged (c : cmd) (cur : ACLBindingRule) : ACLBindingRule :=
  {| ID := ID cur;
     IDPName := IDPName cur;
     Description :=
       if String.eqb (description c) "" then Description cur else description c;
     RoleBindType :=
       if isFlagSet (flags c) "role-bind-type" then roleBindType c
       else RoleBindType cur;
     RoleName :=
       if String.eqb (roleName c) "" then RoleName cur else roleName c;
     Selector :=
       if isFlagSet (flags c) "selector" then selector c else Selector cur |}.

Definition planned (c : cmd) (ruleID : string) (cur : ACLBindingRule)
  : ACLBindingRule :=
  if noMerge c then overwritten c ruleID cur else merged c cur.

(** The two lines of the missing role name. *)
Definition missing_role_name : list ui_line :=
  [UIError (Sprintf "Missing required '-role-name' flag" []); UIError Usage].

(** The world after more lines were printed. *)
Definition say (lines : list ui_line) (w : world) : world :=
  mkWorld (ui w ++ lines) (updates w) (heap w).

(** The world in which [Run] calls the update: the fetched record was stored
    in a new object, the plan was made, and the planned record was sent. *)
Definition submitted (c : cmd) (rid : string) (cur : ACLBindingRule)
    (w : world) : world :=
  let currentRule := fresh (dom (heap w)) in
  let h := <[currentRule := cur]> (heap w) in
  mkWorld (ui w) (updates w ++ [planned c rid cur])
    (if noMerge c then <[fresh (dom h) := overwritten c rid cur]> h
     else <[currentRule := merged c cur]> h).

(** ** The stages of a run, as the exit status sees them *)

(** The command line parses, names a rule, the client is built, the partial
    identifier resolves to [rid] and the store holds [cur] under it. *)
Definition reaches_plan (env : Env) (args : list arg) (c : cmd)
    (client : Client) (rid : string) (cur : ACLBindingRule) : Prop :=
  Parse (isHTTPFlag env) args = Some c
  ∧ ruleID c ≠ ""
  ∧ APIClient env (http c) = inr client
  ∧ GetBindingRuleIDFromPartial client (ruleID c) = inr rid
  ∧ BindingRuleRead client rid = inr (Some cur).

(** The whole pipeline succeeds: the plan is made and the store accepts it. *)
Definition succeeds (env : Env) (args : list arg) : Prop :=
  ∃ c client rid cur updated,
    reaches_plan env args c client rid cur
    ∧ (noMerge c = true → roleName c ≠ "")
    ∧ BindingRuleUpdate client (planned c rid cur) = inr updated.

(** The failures of a run, stage by stage. *)
Inductive fails (env : Env) (args : list arg) : Prop :=
| fails_parse :
    Parse (isHTTPFlag env) args = None → fails env args
| fails_missing_id c :
    Parse (isHTTPFlag env) args = Some c → ruleID c = "" → fails env args
| fails_connect c err :
    Parse (isHTTPFlag env) args = Some c → ruleID c ≠ "" →
    APIClient env (http c) = inl err → fails env args
| fails_resolve c client err :
    Parse (isHTTPFlag env) args = Some c → ruleID c ≠ "" →
    APIClient env (http c) = inr client →
    GetBindingRuleIDFromPartial client (ruleID c) = inl err → fails env args
| fails_fetch c client rid err :
    Parse (isHTTPFlag env) args = Some c → ruleID c ≠ "" →
    APIClient env (http c) = inr client →
    GetBindingRuleIDFromPartial client (ruleID c) = inr rid →
    BindingRuleRead client rid = inl err → fails env args
| fails_not_found c client rid :
    Parse (isHTTPFlag env) args = Some c → ruleID c ≠ "" →
    APIClient env (http c) = inr client →
    GetBindingRuleIDFromPartial client (ruleID c) = inr rid →
    BindingRuleRead client rid = inr None → fails env args
| fails_missing_role_name c client rid cur :
    reaches_plan env args c client rid cur →
    noMerge c = true → roleName c = "" → fails env args
| fails_update c client rid cur err :
    reaches_plan env args c client rid cur →
    (noMerge c = true → roleName c ≠ "") →
    BindingRuleUpdate client (planned c rid cur) = inl err → fails env args.

(** ** Sample data *)

(** A stored rule, a store that holds it under its identifier and accepts
    every update, and an empty world. *)
Definition sample_rule : ACLBindingRule :=
  mkRule "43cb72df-aaa" "kube" "old" "existing" "web" "x==1".

Definition sample_client : Client :=
  mkClient (inr ["43cb72df-aaa"; "51aa0000-bbb"])
           (λ id, if String.eqb id "43cb72df-aaa"
                  then inr (Some sample_rule) else inr None)
           (λ r, inr r).

Definition sample_env : Env := mkEnv (λ _, false) (λ _, inr sample_client).

Definition empty_world : world := mkWorld [] [] ∅.

(** A store whose answer to the fetch carries another identifier than the one
    it was asked for. *)
Definition renaming_client : Client :=
  mkClient (inr ["43cb72df-aaa"])
           (λ _, inr (Some (mkRule "ffffffff-000" "kube" "old" "existing"
                                   "web" "x==1")))
           (λ r, inr r).

Definition renaming_env : Env := mkEnv (λ _, false) (λ _, inr renaming_client).

(** * Properties *)

(** ** Flags and presence *)

(** The loop of [isFlagSet] finds the name exactly when it is in [actual]. *)
Lemma isFlagSet_spec (fs : FlagSet) (name : string) :
  isFlagSet fs name = true ↔ name ∈ actual fs.
Proof.
  unfold isFlagSet, Visit.
  apply (set_fold_ind_L (λ (found : bool) (X : gset string),
                           found = true ↔ name ∈ X)).
  - split; [discriminate | by rewrite elem_of_empty].
  - intros f X found Hf IH. rewrite elem_of_union, elem_of_singleton, <- IH.
    destruct (String.eqb_spec f name) as [E|E]; [split; auto|].
    split; [tauto | intros [?|?]; [congruence | done]].
Qed.

Lemma isFlagSet_false (fs : FlagSet) (name : string) :
  isFlagSet fs name = false ↔ name ∉ actual fs.
Proof.
  rewrite <- isFlagSet_spec. destruct (isFlagSet fs name); split; congruence.
Qed.

(** What one parsed argument changes: its flag enters [actual], and only the
    variable behind that flag is written. *)
Lemma parseOne_inv (h : string → bool) (c c' : cmd) (a : arg) :
  parseOne h c a = Some c' →
  ∃ m, arg_name a = Some m
       ∧ actual (flags c') = {[ m ]} ∪ actual (flags c)
       ∧ ∀ n, n ≠ m → kept n c c'.
Proof.
  destruct a as [name v | name b | t]; cbn -[existsb]; intros H;
    [| | discriminate]; exists name;
    repeat match type of H with
           | context [String.eqb name ?s] =>
               destruct (String.eqb_spec name s) as [->|?]
           end;
    try (destruct (existsb _ _); [discriminate|]);
    try (destruct (h name); [|discriminate]);
    cbn in H; simplify_eq;
    (split; [done|]); (split; [done|]); intros ? ?; split; done.
Qed.

Lemma parseFrom_inv (h : string → bool) (args : list arg) :
  ∀ c c', parseFrom h c args = Some c' →
    (∀ n, n ∈ actual (flags c') ↔ n ∈ actual (flags c) ∨ passed n args)
    ∧ (∀ n, ¬ passed n args → kept n c c').
Proof.
  unfold passed. induction args as [|a args IH]; intros c c' H; simpl in H.
  - simplify_eq. split.
    + intros n. rewrite fmap_nil, elem_of_nil. tauto.
    + intros n _. by split.
  - destruct (parseOne h c a) as [c1|] eqn:E1; [|discriminate].
    destruct (parseOne_inv _ _ _ _ E1) as (m & Hm & Hact & Hun).
    destruct (IH _ _ H) as [IHa IHu]. split.
    + intros n. rewrite IHa, Hact, fmap_cons, elem_of_cons, Hm.
      rewrite elem_of_union, elem_of_singleton. split.
      * intros [[->|?]|?]; auto.
      * intros [?|[?|?]]; simplify_eq; auto.
    + intros n Hn. rewrite fmap_cons, elem_of_cons, Hm in Hn.
      assert (Hnm : n ≠ m) by (intros ->; auto).
      assert (Hn' : Some n ∉ arg_name <$> args) by auto.
      destruct (IHu n Hn') as [a1 a2 a3 a4 a5 a6].
      destruct (Hun n Hnm) as [b1 b2 b3 b4 b5 b6].
      split; intros E;
        [ rewrite (a1 E); exact (b1 E) | rewrite (a2 E); exact (b2 E)
        | rewrite (a3 E); exact (b3 E) | rewrite (a4 E); exact (b4 E)
        | rewrite (a5 E); exact (b5 E) | rewrite (a6 E); exact (b6 E) ].
Qed.

(** After a successful [Parse] the presence set holds exactly the flags the
    command line names. *)
Lemma Parse_presence (h : string → bool) (args : list arg) (c : cmd) (n : string) :
  Parse h args = Some c →
  isFlagSet (flags c) n = true ↔ passed n args.
Proof.
  intros H. destruct (parseFrom_inv _ _ _ _ H) as [Ha _].
  rewrite isFlagSet_spec, Ha. simpl. rewrite elem_of_empty. tauto.
Qed.

(** A flag the command line does not name leaves its variable at the default
    [init] gave it. *)
Lemma Parse_default (h : string → bool) (args : list arg) (c : cmd) (n : string) :
  Parse h args = Some c → ¬ passed n args → kept n init c.
Proof.
  intros H Hn. destruct (parseFrom_inv _ _ _ _ H) as [_ Hu]. auto.
Qed.

Lemma parseFrom_app (h : string → bool) (pre post : list arg) :
  ∀ c c', parseFrom h c (pre ++ post) = Some c' →
    ∃ c1, parseFrom h c pre = Some c1 ∧ parseFrom h c1 post = Some c'.
Proof.
  induction pre as [|a pre IH]; intros c c' H; simpl in *.
  - by exists c.
  - destruct (parseOne h c a) as [c0|]; [by apply IH | discriminate].
Qed.

(** The variable of a string flag holds the value of the flag's last
    occurrence on the command line. *)
Lemma Parse_supplied (h : string → bool) (pre post : list arg) (n v : string)
    (c : cmd) :
  Parse h (pre ++ StringArg n v :: post) = Some c →
  ¬ passed n post →
  (n = "id" → ruleID c = v)
  ∧ (n = "description" → description c = v)
  ∧ (n = "selector" → selector c = v)
  ∧ (n = "role-bind-type" → roleBindType c = v)
  ∧ (n = "role-name" → roleName c = v).
Proof.
  intros H Hpost. apply parseFrom_app in H as (c1 & _ & H).
  cbn [parseFrom] in H.
  destruct (parseOne h c1 (StringArg n v)) as [c2|] eqn:E; [|discriminate].
  destruct (parseFrom_inv _ _ _ _ H) as [_ Hkept].
  destruct (Hkept n Hpost) as [k1 k2 k3 k4 k5 _].
  split_and!; intros ->; cbn in E; simplify_eq;
    [rewrite k1|rewrite k2|rewrite k3|rewrite k4|rewrite k5]; done.
Qed.

(** ** The planner *)

Ltac run_M :=
  unfold mbind, M_bind, mret, M_ret, return_, UI_Error, UI_Info,
    PrintBindingRule, new, load, store, submit; simpl.

Lemma world_eq (w : world) : mkWorld (ui w) (updates w) (heap w) = w.
Proof. by destruct w. Qed.

(** No-merge without a role name: two lines are printed and [Run] is left
    with status 1; heap and submissions are as before. *)
Lemma planRule_missing (c : cmd) (rid : string) (l : loc) (w : world) :
  noMerge c = true → roleName c = "" →
  planRule c rid l w
  = (say missing_role_name w, Return 1).
Proof.
  intros Hn Hr. unfold planRule, say. rewrite Hn, Hr. run_M.
  by rewrite <- app_assoc.
Qed.

(** No-merge with a role name: a new object holds the struct literal. *)
Lemma planRule_overwrite (c : cmd) (rid : string) (l : loc) (w : world)
    (cur : ACLBindingRule) :
  noMerge c = true → roleName c ≠ "" → heap w !! l = Some cur →
  planRule c rid l w
  = (mkWorld (ui w) (updates w)
             (<[fresh (dom (heap w)) := overwritten c rid cur]> (heap w)),
     Next (fresh (dom (heap w)))).
Proof.
  intros Hn Hr Hl. unfold planRule. rewrite Hn.
  apply String.eqb_neq in Hr. rewrite Hr. run_M. by rewrite Hl.
Qed.

(** Merge: the pointer returned is [currentRule] itself and the object behind
    it holds [merged]. *)
Lemma planRule_merge (c : cmd) (rid : string) (l : loc) (w : world)
    (cur : ACLBindingRule) :
  noMerge c = false → heap w !! l = Some cur →
  planRule c rid l w
  = (mkWorld (ui w) (updates w) (<[l := merged c cur]> (heap w)), Next l).
Proof.
  intros Hn Hl. unfold planRule, merged. rewrite Hn.
  destruct cur as [i p d b r s]; simpl.
  destruct (String.eqb (description c) ""), (String.eqb (roleName c) ""),
    (isFlagSet (flags c) "role-bind-type"), (isFlagSet (flags c) "selector");
    run_M;
    repeat (rewrite ?Hl, ?lookup_insert_eq; simpl);
    rewrite ?insert_insert_eq; try done;
    by rewrite (insert_id _ _ _ Hl), world_eq.
Qed.

(** ** The run, stage by stage *)

Lemma Run_parse_error (env : Env) (args : list arg) (w : world) :
  Parse (isHTTPFlag env) args = None → Run env args w = (w, Return 1).
Proof. intros H. unfold Run. by rewrite H. Qed.

Lemma Run_missing_id (env : Env) (args : list arg) (w : world) (c : cmd) :
  Parse (isHTTPFlag env) args = Some c → ruleID c = "" →
  Run env args w
  = (say [UIError (Sprintf
       "Cannot update a binding rule without specifying the -id parameter" [])]
       w, Return 1).
Proof. intros H Hid. unfold Run. by rewrite H, Hid. Qed.

Lemma Run_connect_error (env : Env) (args : list arg) (w : world) (c : cmd)
    (err : error) :
  Parse (isHTTPFlag env) args = Some c → ruleID c ≠ "" →
  APIClient env (http c) = inl err →
  Run env args w
  = (say [UIError (Sprintf "Error connecting to Consul agent: %s"
                           [OpError err])] w, Return 1).
Proof.
  intros H Hid Hc. unfold Run. apply String.eqb_neq in Hid.
  by rewrite H, Hid, Hc.
Qed.

Lemma Run_resolve_error (env : Env) (args : list arg) (w : world) (c : cmd)
    (client : Client) (err : error) :
  Parse (isHTTPFlag env) args = Some c → ruleID c ≠ "" →
  APIClient env (http c) = inr client →
  GetBindingRuleIDFromPartial client (ruleID c) = inl err →
  Run env args w
  = (say [UIError (Sprintf "Error determining binding rule ID: %v"
                           [OpError err])] w, Return 1).
Proof.
  intros H Hid Hc Hr. unfold Run. apply String.eqb_neq in Hid.
  by rewrite H, Hid, Hc, Hr.
Qed.

Lemma Run_fetch_error (env : Env) (args : list arg) (w : world) (c : cmd)
    (client : Client) (rid : string) (err : error) :
  Parse (isHTTPFlag env) args = Some c → ruleID c ≠ "" →
  APIClient env (http c) = inr client →
  GetBindingRuleIDFromPartial client (ruleID c) = inr rid →
  BindingRuleRead client rid = inl err →
  Run env args w
  = (say [UIError (Sprintf "Error when retrieving current binding rule: %v"
                           [OpError err])] w, Return 1).
Proof.
  intros H Hid Hc Hr Hf. unfold Run. apply String.eqb_neq in Hid.
  by rewrite H, Hid, Hc, Hr, Hf.
Qed.

Lemma Run_not_found (env : Env) (args : list arg) (w : world) (c : cmd)
    (client : Client) (rid : string) :
  Parse (isHTTPFlag env) args = Some c → ruleID c ≠ "" →
  APIClient env (http c) = inr client →
  GetBindingRuleIDFromPartial client (ruleID c) = inr rid →
  BindingRuleRead client rid = inr None →
  Run env args w
  = (say [UIError (Sprintf "Binding rule not found with ID %q"
                           [OpString rid])] w, Return 1).
Proof.
  intros H Hid Hc Hr Hf. unfold Run. apply String.eqb_neq in Hid.
  by rewrite H, Hid, Hc, Hr, Hf.
Qed.

(** The heap once the fetched record has its object. *)
Lemma lookup_current (w : world) (cur : ACLBindingRule) :
  <[fresh (dom (heap w)) := cur]> (heap w) !! fresh (dom (heap w)) = Some cur.
Proof. apply lookup_insert_eq. Qed.

Lemma Run_missing_role_name (env : Env) (args : list arg) (w : world)
    (c : cmd) (client : Client) (rid : string) (cur : ACLBindingRule) :
  reaches_plan env args c client rid cur →
  noMerge c = true → roleName c = "" →
  Run env args w
  = (say missing_role_name
       (mkWorld (ui w) (updates w) (<[fresh (dom (heap w)) := cur]> (heap w))),
     Return 1).
Proof.
  intros (H & Hid & Hc & Hr & Hf) Hn Hrn. unfold Run.
  apply String.eqb_neq in Hid. rewrite H, Hid, Hc, Hr, Hf.
  unfold mbind at 1, M_bind at 1, new at 1.
  unfold mbind at 1, M_bind at 1.
  by rewrite (planRule_missing _ _ _ _ Hn Hrn).
Qed.

Lemma callUpdate_eq (client : Client) (l : loc) (w : world)
    (r : ACLBindingRule) :
  heap w !! l = Some r →
  callUpdate client l w
  = (mkWorld (ui w) (updates w ++ [r]) (heap w),
     Next (BindingRuleUpdate client r)).
Proof. intros Hl. unfold callUpdate. run_M. by rewrite Hl. Qed.

Lemma Run_submit (env : Env) (args : list arg) (w : world)
    (c : cmd) (client : Client) (rid : string) (cur : ACLBindingRule) :
  reaches_plan env args c client rid cur →
  (noMerge c = true → roleName c ≠ "") →
  Run env args w
  = match BindingRuleUpdate client (planned c rid cur) with
    | inl err =>
        (say [UIError (Sprintf "Error updating binding rule %q: %v"
                               [OpString rid; OpError err])]
             (submitted c rid cur w), Return 1)
    | inr updated =>
        (say [UIInfo (Sprintf "Binding rule updated successfully" []);
              UIRule updated (showMeta c)]
             (submitted c rid cur w), Return 0)
    end.
Proof.
  intros (H & Hid & Hc & Hr & Hf) Hplan. unfold Run.
  apply String.eqb_neq in Hid. rewrite H, Hid, Hc, Hr, Hf.
  unfold mbind at 1, M_bind at 1, new at 1.
  unfold mbind at 1, M_bind at 1.
  set (w1 := mkWorld (ui w) (updates w)
                     (<[fresh (dom (heap w)) := cur]> (heap w))).
  unfold submitted, planned, say. destruct (noMerge c) eqn:Hn.
  - rewrite (planRule_overwrite c rid _ w1 cur Hn (Hplan eq_refl)
               (lookup_current w cur)).
    unfold mbind at 1, M_bind at 1.
    erewrite callUpdate_eq by apply lookup_insert_eq.
    destruct (BindingRuleUpdate client _); run_M; [done|].
    by rewrite <- app_assoc.
  - rewrite (planRule_merge c rid _ w1 cur Hn (lookup_current w cur)).
    unfold mbind at 1, M_bind at 1.
    erewrite callUpdate_eq by apply lookup_insert_eq.
    destruct (BindingRuleUpdate client _); run_M; [done|].
    by rewrite <- app_assoc.
Qed.

(** ** The resolver *)

Lemma HasPrefix_spec (s pre : string) :
  HasPrefix s pre = true ↔ is_prefix_of pre s.
Proof.
  unfold HasPrefix, is_prefix_of. revert s.
  induction pre as [|a pre IH]; intros s; simpl.
  - destruct s; (split; [intros _; by eexists | done]).
  - destruct s as [|b s]; simpl.
    + split; [discriminate | intros [rest ?]; discriminate].
    + destruct (Ascii.ascii_dec a b) as [->|Hne].
      * rewrite IH. split; intros [rest H]; exists rest.
        -- by rewrite H.
        -- change (String b s = String b (pre +:+ rest)) in H. congruence.
      * split; [discriminate|]. intros [rest H].
        change (String b s = String a (pre +:+ rest)) in H. congruence.
Qed.

(** The matches the resolver collects are the candidates the partial
    identifier is a prefix of, each as often as the source lists it. *)
Lemma matches_spec (partialID : string) (candidates : list string) (id : string) :
  id ∈ List.filter (λ id, HasPrefix id partialID) candidates
  ↔ id ∈ candidates ∧ is_prefix_of partialID id.
Proof.
  rewrite <- HasPrefix_spec, !list_elem_of_In.
  apply (filter_In (λ id, HasPrefix id partialID)).
Qed.

Lemma matches_NoDup (partialID : string) (candidates : list string) :
  NoDup candidates →
  NoDup (List.filter (λ id, HasPrefix id partialID) candidates).
Proof. rewrite !NoDup_ListNoDup. apply List.NoDup_filter. Qed.

(** Scenario A of the spec. *)
Example resolve_scenario_A :
  resolve "43cb72df" ["43cb72df-aaa"; "43cb72df-bbb"]
  = inl (AmbiguousPrefix "43cb72df" ["43cb72df-aaa"; "43cb72df-bbb"]).
Proof. reflexivity. Qed.

(** Scenario B of the spec. *)
Example resolve_scenario_B :
  resolve "43cb72df" ["43cb72df-aaa"] = inr "43cb72df-aaa".
Proof. reflexivity. Qed.

(** Prefixes are compared case-sensitively. *)
Example resolve_case_sensitive :
  resolve "43CB" ["43cb72df-aaa"] = inl (NotFound "43CB").
Proof. reflexivity. Qed.

(** C5.  For every partial identifier (non-empty or not) and every set of
    candidate full identifiers, given as a duplicate-free sequence: the
    resolver returns [id] exactly when [id] is the one candidate that has the
    partial identifier as a case-sensitive prefix; it fails with [NotFound]
    exactly when no candidate has it as a prefix; and it fails with
    [AmbiguousPrefix], naming precisely the colliding candidates, exactly when
    two different candidates have it as a prefix. *)
Theorem resolve_unique_prefix (partialID : string) (candidates : list string) :
  NoDup candidates →
  (∀ id, resolve partialID candidates = inr id
         ↔ id ∈ candidates ∧ is_prefix_of partialID id
           ∧ ∀ id', id' ∈ candidates → is_prefix_of partialID id' → id' = id)
  ∧ (resolve partialID candidates = inl (NotFound partialID)
     ↔ ∀ id, id ∈ candidates → ¬ is_prefix_of partialID id)
  ∧ ((∃ ms, resolve partialID candidates = inl (AmbiguousPrefix partialID ms)
            ∧ ∀ id, id ∈ ms ↔ id ∈ candidates ∧ is_prefix_of partialID id)
     ↔ ∃ id id', id ≠ id' ∧ id ∈ candidates ∧ id' ∈ candidates
                 ∧ is_prefix_of partialID id ∧ is_prefix_of partialID id').
Proof.
  intros Hnd.
  pose proof (matches_spec partialID candidates) as Hin.
  pose proof (matches_NoDup partialID candidates Hnd) as Hms.
  unfold resolve.
  destruct (List.filter _ candidates) as [|x [|y ms]].
  - (* no match *)
    assert (Hno : ∀ id, id ∈ candidates → ¬ is_prefix_of partialID id).
    { intros id H1 H2. apply (elem_of_nil id), Hin. auto. }
    split; [|split].
    + intros id. split; [discriminate|].
      intros (H1 & H2 & _). destruct (Hno id H1 H2).
    + done.
    + split.
      * intros (ms & H & _). discriminate.
      * intros (id & _ & _ & H1 & _ & H2 & _). destruct (Hno id H1 H2).
  - (* one match *)
    assert (Hx : x ∈ candidates ∧ is_prefix_of partialID x)
      by (apply Hin; left).
    assert (Hone : ∀ id, id ∈ candidates → is_prefix_of partialID id → id = x).
    { intros id H1 H2. by apply list_elem_of_singleton, Hin. }
    split; [|split].
    + intros id. split.
      * intros [= <-]. destruct Hx. auto.
      * intros (H1 & H2 & _). f_equal. symmetry. auto.
    + split; [discriminate|]. intros H. destruct Hx as [H1 H2].
      destruct (H x H1 H2).
    + split.
      * intros (ms & H & _). discriminate.
      * intros (id & id' & Hne & H1 & H1' & H2 & H2').
        destruct Hne. by rewrite (Hone id), (Hone id').
  - (* two or more matches *)
    assert (Hx : x ∈ candidates ∧ is_prefix_of partialID x)
      by (apply Hin; left).
    assert (Hy : y ∈ candidates ∧ is_prefix_of partialID y)
      by (apply Hin; right; left).
    assert (Hxy : x ≠ y).
    { intros ->. apply NoDup_cons in Hms as [Hms _]. apply Hms. left. }
    destruct Hx as [Hx1 Hx2], Hy as [Hy1 Hy2].
    split; [|split].
    + intros id. split; [discriminate|].
      intros (_ & _ & Huniq). destruct Hxy.
      by rewrite (Huniq x), (Huniq y).
    + split; [discriminate|]. intros H. destruct (H x Hx1 Hx2).
    + split.
      * intros _. exists x, y. auto.
      * intros _. eexists. split; [reflexivity | exact Hin].
Qed.

Lemma resolve_unique_prefix_witness :
  NoDup ["43cb72df-aaa"; "51aa0000-bbb"]
  ∧ (resolve "43cb" ["43cb72df-aaa"; "51aa0000-bbb"] = inr "43cb72df-aaa"
     ↔ "43cb72df-aaa" ∈ ["43cb72df-aaa"; "51aa0000-bbb"]
       ∧ is_prefix_of "43cb" "43cb72df-aaa"
       ∧ ∀ id', id' ∈ ["43cb72df-aaa"; "51aa0000-bbb"] →
                is_prefix_of "43cb" id' → id' = "43cb72df-aaa").
Proof.
  assert (Hnd : NoDup ["43cb72df-aaa"; "51aa0000-bbb"]).
  { refine (bool_decide_unpack _ _). vm_compute. exact I. }
  split; [exact Hnd|].
  apply (resolve_unique_prefix "43cb" ["43cb72df-aaa"; "51aa0000-bbb"] Hnd).
Defined.

(** ** The plan *)

Lemma fresh_unused (w : world) : heap w !! fresh (dom (heap w)) = None.
Proof. apply not_elem_of_dom, is_fresh. Qed.

(** C1, as the code has it.  In overwrite mode with a role name, the planned
    record is a new object, different from every object of the heap and so
    from the current record, which stays as it was.  Its id is the identifier
    the resolver returned, its providerRef is the current record's, and
    description, roleBindType, roleName and selector are the values of the
    flag variables.  A flag the command line does not pass leaves its default
    there: the empty string for description and selector, and "service" for
    roleBindType. *)
Theorem overwrite_plan (h : string → bool) (args : list arg) (c : cmd)
    (rid : string) (l : loc) (w : world) (cur : ACLBindingRule) :
  Parse h args = Some c →
  noMerge c = true →
  roleName c ≠ "" →
  heap w !! l = Some cur →
  ∃ l' r,
    planRule c rid l w
    = (mkWorld (ui w) (updates w) (<[l' := r]> (heap w)), Next l')
    ∧ heap w !! l' = None
    ∧ <[l' := r]> (heap w) !! l = Some cur
    ∧ ID r = rid
    ∧ IDPName r = IDPName cur
    ∧ Description r = description c
    ∧ RoleBindType r = roleBindType c
    ∧ RoleName r = roleName c
    ∧ Selector r = selector c
    ∧ (¬ passed "description" args → Description r = "")
    ∧ (¬ passed "selector" args → Selector r = "")
    ∧ (¬ passed "role-bind-type" args → RoleBindType r = "service").
Proof.
  intros Hp Hn Hr Hl.
  exists (fresh (dom (heap w))), (overwritten c rid cur).
  pose proof (fresh_unused w) as Hfresh.
  split; [by apply planRule_overwrite|].
  split; [done|].
  split. { rewrite lookup_insert_ne; [done | congruence]. }
  do 6 (split; [done|]). simpl.
  split; [|split]; intros Hnot.
  - by rewrite (keep_description _ _ _ (Parse_default _ _ _ _ Hp Hnot)).
  - by rewrite (keep_selector _ _ _ (Parse_default _ _ _ _ Hp Hnot)).
  - by rewrite (keep_roleBindType _ _ _ (Parse_default _ _ _ _ Hp Hnot)).
Qed.

Ltac by_computation := refine (bool_decide_unpack _ _); vm_compute; exact I.

Lemma overwrite_plan_witness :
  let args := [StringArg "id" "43cb"; BoolArg "no-merge" true;
               StringArg "role-name" "web"] in
  let c := set_roleName "web" (set_noMerge true (set_ruleID "43cb" init)) in
  let w := mkWorld [] [] {[ 1%positive := sample_rule ]} in
  Parse (λ _, false) args = Some c
  ∧ noMerge c = true
  ∧ roleName c ≠ ""
  ∧ heap w !! 1%positive = Some sample_rule
  ∧ ∃ l' r,
      planRule c "43cb72df-aaa" 1%positive w
      = (mkWorld [] [] (<[l' := r]> (heap w)), Next l')
      ∧ r = mkRule "43cb72df-aaa" "kube" "" "service" "web" "".
Proof.
  intros args c w.
  assert (Hp : Parse (λ _, false) args = Some c) by reflexivity.
  assert (Hn : noMerge c = true) by reflexivity.
  assert (Hr : roleName c ≠ "") by discriminate.
  assert (Hl : heap w !! 1%positive = Some sample_rule) by reflexivity.
  do 4 (split; [assumption|]).
  destruct (overwrite_plan (λ _, false) args c "43cb72df-aaa" 1%positive w
              sample_rule Hp Hn Hr Hl)
    as (l' & r & Hplan & _ & _ & H1 & H2 & H3 & H4 & H5 & H6 & _).
  exists l', r. split; [exact Hplan|].
  destruct r; simpl in *; by subst.
Defined.

(** C1 as stated fails: without [-role-bind-type] on the command line, the
    record planned in overwrite mode has roleBindType "service", the default
    of the flag, and not the empty string. *)
Lemma overwrite_unset_roleBindType_is_service :
  let args := [StringArg "id" "43cb"; BoolArg "no-merge" true;
               StringArg "role-name" "web"] in
  ¬ passed "role-bind-type" args
  ∧ ∃ r, updates (Run sample_env args empty_world).1 = [r]
         ∧ RoleBindType r = "service"
         ∧ RoleBindType r ≠ "".
Proof.
  intros args. split; [unfold passed; by_computation|].
  eexists. split; [vm_compute; reflexivity|]. split; [reflexivity|discriminate].
Qed.

(** C2.  In merge mode, for every current record and every input: when
    [-role-bind-type] was passed on this invocation the planned roleBindType
    is the supplied value (the flag's variable, which holds the value of the
    flag's last occurrence), whatever it is, and otherwise it is the current
    record's; the same for [-selector] and the selector.  An empty supplied
    value is stored like any other. *)
Theorem merge_presence_fields (h : string → bool) (args : list arg) (c : cmd)
    (rid : string) (l : loc) (w : world) (cur : ACLBindingRule) :
  Parse h args = Some c →
  noMerge c = false →
  heap w !! l = Some cur →
  ∃ r,
    planRule c rid l w
    = (mkWorld (ui w) (updates w) (<[l := r]> (heap w)), Next l)
    ∧ (passed "role-bind-type" args → RoleBindType r = roleBindType c)
    ∧ (¬ passed "role-bind-type" args → RoleBindType r = RoleBindType cur)
    ∧ (passed "selector" args → Selector r = selector c)
    ∧ (¬ passed "selector" args → Selector r = Selector cur)
    ∧ (∀ (pre : list arg) v post,
         args = (pre ++ StringArg "role-bind-type" v :: post)%list →
         ¬ passed "role-bind-type" post → RoleBindType r = v)
    ∧ (∀ (pre : list arg) v post,
         args = (pre ++ StringArg "selector" v :: post)%list →
         ¬ passed "selector" post → Selector r = v).
Proof.
  intros Hp Hn Hl. exists (merged c cur).
  split; [by apply planRule_merge|]. simpl.
  pose proof (Parse_presence h args c "role-bind-type" Hp) as Hb.
  pose proof (Parse_presence h args c "selector" Hp) as Hs.
  assert (Hhere : ∀ n (pre : list arg) v post,
            args = (pre ++ StringArg n v :: post)%list → passed n args).
  { intros n pre v post ->. unfold passed.
    rewrite fmap_app, fmap_cons, elem_of_app, elem_of_cons. auto. }
  split_and!.
  - intros Hin. apply Hb in Hin. by rewrite Hin.
  - intros Hin. destruct (isFlagSet (flags c) "role-bind-type"); [|done].
    destruct Hin. by apply Hb.
  - intros Hin. apply Hs in Hin. by rewrite Hin.
  - intros Hin. destruct (isFlagSet (flags c) "selector"); [|done].
    destruct Hin. by apply Hs.
  - intros pre v post Hargs Hpost.
    rewrite (proj2 Hb (Hhere _ _ _ _ Hargs)). subst args.
    by apply (Parse_supplied h pre post "role-bind-type" v c Hp Hpost).
  - intros pre v post Hargs Hpost.
    rewrite (proj2 Hs (Hhere _ _ _ _ Hargs)). subst args.
    by apply (Parse_supplied h pre post "selector" v c Hp Hpost).
Qed.

Lemma merge_presence_fields_witness :
  let args := [StringArg "id" "43cb"; StringArg "selector" ""] in
  let c := set_selector "" (set_ruleID "43cb" init) in
  let w := mkWorld [] [] {[ 1%positive := sample_rule ]} in
  Parse (λ _, false) args = Some c
  ∧ noMerge c = false
  ∧ heap w !! 1%positive = Some sample_rule
  ∧ ∃ r,
      planRule c "43cb72df-aaa" 1%positive w
      = (mkWorld [] [] (<[1%positive := r]> (heap w)), Next 1%positive)
      ∧ RoleBindType r = "existing"
      ∧ Selector r = "".
Proof.
  intros args c w.
  assert (Hp : Parse (λ _, false) args = Some c) by reflexivity.
  assert (Hn : noMerge c = false) by reflexivity.
  assert (Hl : heap w !! 1%positive = Some sample_rule) by reflexivity.
  do 3 (split; [assumption|]).
  destruct (merge_presence_fields (λ _, false) args c "43cb72df-aaa" 1%positive
              w sample_rule Hp Hn Hl)
    as (r & Hplan & _ & Hb & Hs & _).
  exists r. split; [exact Hplan|]. split.
  - apply Hb. unfold passed. by_computation.
  - apply Hs. unfold passed. by_computation.
Defined.

(** C3.  In merge mode, for every current record and every input, the planned
    description is the supplied one when that is non-empty and the current
    record's when it is empty, and the same holds for roleName.  In
    particular (Scenario C), with a current record of description "old" and
    selector "x==1", an input whose description and selector are empty and a
    presence set that holds only the selector, the planned record has
    description "old" and selector "". *)
Theorem merge_nonempty_fields (c : cmd) (rid : string) (l : loc) (w : world)
    (cur : ACLBindingRule) :
  noMerge c = false →
  heap w !! l = Some cur →
  ∃ r,
    planRule c rid l w
    = (mkWorld (ui w) (updates w) (<[l := r]> (heap w)), Next l)
    ∧ (description c ≠ "" → Description r = description c)
    ∧ (description c = "" → Description r = Description cur)
    ∧ (roleName c ≠ "" → RoleName r = roleName c)
    ∧ (roleName c = "" → RoleName r = RoleName cur)
    ∧ (Description cur = "old" → Selector cur = "x==1" →
       description c = "" → selector c = "" →
       actual (flags c) = {[ "selector" ]} →
       Description r = "old" ∧ Selector r = "").
Proof.
  intros Hn Hl. exists (merged c cur).
  split; [by apply planRule_merge|]. simpl.
  split_and!.
  - intros Hd. apply String.eqb_neq in Hd. by rewrite Hd.
  - by intros ->.
  - intros Hr. apply String.eqb_neq in Hr. by rewrite Hr.
  - by intros ->.
  - intros Hold Hsel Hd Hs Ha.
    assert (Hset : isFlagSet (flags c) "selector" = true).
    { apply isFlagSet_spec. rewrite Ha. by apply elem_of_singleton. }
    by rewrite Hd, Hs, Hset.
Qed.

Lemma merge_nonempty_fields_witness :
  let c := set_selector "" init in
  let cur := mkRule "43cb72df-aaa" "kube" "old" "existing" "web" "x==1" in
  let w := mkWorld [] [] {[ 1%positive := cur ]} in
  noMerge c = false
  ∧ heap w !! 1%positive = Some cur
  ∧ ∃ r,
      planRule c "43cb72df-aaa" 1%positive w
      = (mkWorld [] [] (<[1%positive := r]> (heap w)), Next 1%positive)
      ∧ Description r = "old"
      ∧ RoleName r = "web"
      ∧ Selector r = "".
Proof.
  intros c cur w.
  assert (Hn : noMerge c = false) by reflexivity.
  assert (Hl : heap w !! 1%positive = Some cur) by reflexivity.
  do 2 (split; [assumption|]).
  destruct (merge_nonempty_fields c "43cb72df-aaa" 1%positive w cur Hn Hl)
    as (r & Hplan & _ & _ & _ & Hrn & Hscenario).
  exists r. split; [exact Hplan|].
  destruct Hscenario as [Hd Hs]; try reflexivity.
  split; [exact Hd|]. split; [|exact Hs]. by apply Hrn.
Defined.

(** Scenario C of the spec, run from the command line to the store. *)
Example scenario_C :
  updates (Run sample_env [StringArg "id" "43cb"; StringArg "selector" ""]
               empty_world).1
  = [mkRule "43cb72df-aaa" "kube" "old" "existing" "web" ""].
Proof. vm_compute. reflexivity. Qed.

(** C4, as the code has it.  Whenever a plan is made and submitted, in both
    modes and for every input, the planned record's providerRef is the
    fetched current record's.  Its id is the current record's in merge mode;
    in overwrite mode it is the identifier returned by the resolver, under
    which the current record was fetched, and so it is the current record's id
    whenever the store answers the fetch with the record of the identifier it
    was asked for. *)
Theorem planned_identity (env : Env) (args : list arg) (w : world) (c : cmd)
    (client : Client) (rid : string) (cur : ACLBindingRule) :
  reaches_plan env args c client rid cur →
  (noMerge c = true → roleName c ≠ "") →
  ∃ r : ACLBindingRule,
    updates (Run env args w).1 = (updates w ++ [r])%list
    ∧ IDPName r = IDPName cur
    ∧ ID r = (if noMerge c then rid else ID cur)
    ∧ (ID cur = rid → ID r = ID cur).
Proof.
  intros Hreach Hplan. exists (planned c rid cur). split.
  - rewrite (Run_submit env args w c client rid cur Hreach Hplan).
    by destruct (BindingRuleUpdate client _).
  - unfold planned. destruct (noMerge c); simpl; auto.
Qed.

Lemma planned_identity_witness :
  let args := [StringArg "id" "43cb"; BoolArg "no-merge" true;
               StringArg "role-name" "web"] in
  let c := set_roleName "web" (set_noMerge true (set_ruleID "43cb" init)) in
  reaches_plan sample_env args c sample_client "43cb72df-aaa" sample_rule
  ∧ (noMerge c = true → roleName c ≠ "")
  ∧ ∃ r, updates (Run sample_env args empty_world).1 = [r]
         ∧ IDPName r = "kube"
         ∧ ID r = "43cb72df-aaa".
Proof.
  intros args c.
  assert (Hreach : reaches_plan sample_env args c sample_client
                     "43cb72df-aaa" sample_rule).
  { repeat split; try reflexivity. discriminate. }
  assert (Hplan : noMerge c = true → roleName c ≠ "") by (intros _; discriminate).
  do 2 (split; [assumption|]).
  destruct (planned_identity sample_env args empty_world c sample_client
              "43cb72df-aaa" sample_rule Hreach Hplan)
    as (r & Hu & Hp & Hi & _).
  exists r. auto.
Defined.

(** C4 as stated fails: in overwrite mode the id is the resolved identifier;
    when the store answers the fetch with a record that carries another id,
    the planned id is not the current record's. *)
Lemma overwrite_id_is_resolved_identifier :
  let args := [StringArg "id" "43cb"; BoolArg "no-merge" true;
               StringArg "role-name" "web"] in
  ∃ cur r,
    GetBindingRuleIDFromPartial renaming_client "43cb" = inr "43cb72df-aaa"
    ∧ BindingRuleRead renaming_client "43cb72df-aaa" = inr (Some cur)
    ∧ updates (Run renaming_env args empty_world).1 = [r]
    ∧ ID r = "43cb72df-aaa"
    ∧ ID cur = "ffffffff-000"
    ∧ ID r ≠ ID cur.
Proof.
  intros args. do 2 eexists.
  split; [reflexivity|]. split; [reflexivity|].
  split; [vm_compute; reflexivity|].
  split; [reflexivity|]. split; [reflexivity|]. discriminate.
Qed.

(** ** Exit status *)

(** Every run either passes all stages or fails at one of them. *)
Lemma stages (env : Env) (args : list arg) : succeeds env args ∨ fails env args.
Proof.
  destruct (Parse (isHTTPFlag env) args) as [c|] eqn:Hp;
    [|right; by apply fails_parse].
  destruct (String.eqb_spec (ruleID c) "") as [Hid|Hid];
    [right; by eapply fails_missing_id|].
  destruct (APIClient env (http c)) as [err|client] eqn:Hc;
    [right; by eapply fails_connect|].
  destruct (GetBindingRuleIDFromPartial client (ruleID c)) as [err|rid] eqn:Hr;
    [right; by eapply fails_resolve|].
  destruct (BindingRuleRead client rid) as [err|[cur|]] eqn:Hf;
    [right; by eapply fails_fetch| |right; by eapply fails_not_found].
  assert (Hreach : reaches_plan env args c client rid cur) by done.
  destruct (noMerge c) eqn:Hn, (String.eqb_spec (roleName c) "") as [Hrn|Hrn];
    try (right; by eapply fails_missing_role_name);
    (destruct (BindingRuleUpdate client (planned c rid cur)) as [err|u] eqn:Hu;
     [ right; eapply fails_update; eauto; congruence
     | left; exists c, client, rid, cur, u; split_and!; auto; congruence ]).
Qed.

(** Two readings of the same stage agree. *)
Ltac same_stage :=
  repeat match goal with
         | H : ?x = ?a, H' : ?x = ?b |- _ =>
             rewrite H in H';
             first [discriminate H' | injection H' as <- | clear H']
         end.

Lemma reaches_plan_inj (env : Env) (args : list arg) (c c' : cmd)
    (client client' : Client) (rid rid' : string) (cur cur' : ACLBindingRule) :
  reaches_plan env args c client rid cur →
  reaches_plan env args c' client' rid' cur' →
  c = c' ∧ client = client' ∧ rid = rid' ∧ cur = cur'.
Proof.
  intros (H1 & _ & H2 & H3 & H4) (H1' & _ & H2' & H3' & H4').
  rewrite H1 in H1'. injection H1' as <-.
  rewrite H2 in H2'. injection H2' as <-.
  rewrite H3 in H3'. injection H3' as <-.
  rewrite H4 in H4'. injection H4' as <-. done.
Qed.

Lemma succeeds_not_fails (env : Env) (args : list arg) :
  succeeds env args → fails env args → False.
Proof.
  intros (c & client & rid & cur & u & Hreach & Hplan & Hu) Hfail.
  pose proof Hreach as (H1 & H2 & H3 & H4 & H5).
  destruct Hfail as [ H | c' H Hid | c' err H Hid Hc | c' cl err H Hid Hc Hr
                    | c' cl rid' err H Hid Hc Hr Hf | c' cl rid' H Hid Hc Hr Hf
                    | c' cl rid' cur' Hreach' Hn Hrn
                    | c' cl rid' cur' err Hreach' Hplan' Hu' ];
    try (same_stage; congruence).
  - destruct (reaches_plan_inj _ _ _ _ _ _ _ _ _ _ Hreach Hreach')
      as (-> & -> & -> & ->). by apply Hplan.
  - destruct (reaches_plan_inj _ _ _ _ _ _ _ _ _ _ Hreach Hreach')
      as (-> & -> & -> & ->). congruence.
Qed.

Lemma Run_succeeds (env : Env) (args : list arg) (w : world) :
  succeeds env args → ∃ w', Run env args w = (w', Return 0).
Proof.
  intros (c & client & rid & cur & u & Hreach & Hplan & Hu).
  rewrite (Run_submit env args w c client rid cur Hreach Hplan), Hu. eauto.
Qed.

Lemma Run_fails (env : Env) (args : list arg) (w : world) :
  fails env args → ∃ w', Run env args w = (w', Return 1).
Proof.
  intros [ H | c H Hid | c err H Hid Hc | c cl err H Hid Hc Hr
         | c cl rid err H Hid Hc Hr Hf | c cl rid H Hid Hc Hr Hf
         | c cl rid cur Hreach Hn Hrn
         | c cl rid cur err Hreach Hplan Hu ].
  - rewrite Run_parse_error by done. eauto.
  - erewrite Run_missing_id by done. eauto.
  - erewrite Run_connect_error by done. eauto.
  - erewrite Run_resolve_error by done. eauto.
  - erewrite Run_fetch_error by done. eauto.
  - erewrite Run_not_found by done. eauto.
  - erewrite Run_missing_role_name by done. eauto.
  - rewrite (Run_submit env args w c cl rid cur Hreach Hplan), Hu. eauto.
Qed.

(** C7.  Every run ends with an exit status, 0 or 1.  The status is 0 exactly
    when the whole pipeline succeeds: the command line parses and names a
    rule, the client is built, the identifier resolves, the current record is
    fetched, the plan is made and the store accepts the update.  It is 1
    exactly when a stage fails: parse error, missing -id, connection error,
    resolution failure, fetch failure, record not found, missing role name
    under overwrite, or submission failure. *)
Theorem exit_status (env : Env) (args : list arg) (w : world) :
  ∃ w' code,
    Run env args w = (w', Return code)
    ∧ (code = 0 ∨ code = 1)%Z
    ∧ (code = 0%Z ↔ succeeds env args)
    ∧ (code = 1%Z ↔ fails env args)
    ∧ (code ≠ 0%Z ↔ fails env args).
Proof.
  destruct (stages env args) as [Hs|Hf].
  - destruct (Run_succeeds env args w Hs) as [w' Hrun].
    exists w', 0%Z. split; [done|]. split; [by left|].
    split; [done|].
    split; (split; [done|]); intros Hf; destruct (succeeds_not_fails _ _ Hs Hf).
  - destruct (Run_fails env args w Hf) as [w' Hrun].
    exists w', 1%Z. split; [done|]. split; [by right|].
    split; [|done].
    split; [done|]. intros Hs. destruct (succeeds_not_fails _ _ Hs Hf).
Qed.

(** ** Overwrite mode without a role name *)

(** What a run prints and submits when the command line asks for overwrite
    mode and leaves the role name empty. *)
Lemma Run_overwrite_no_role_name (env : Env) (args : list arg) (w : world)
    (c : cmd) :
  Parse (isHTTPFlag env) args = Some c →
  noMerge c = true → roleName c = "" →
  ∃ lines w',
    Run env args w = (w', Return 1)
    ∧ ui w' = (ui w ++ lines)%list
    ∧ updates w' = updates w
    ∧ ( (lines = missing_role_name
         ∧ ∃ client rid cur, reaches_plan env args c client rid cur)
      ∨ (ruleID c = ""
         ∧ lines = [UIError (Sprintf
             "Cannot update a binding rule without specifying the -id parameter"
             [])])
      ∨ (∃ err, ruleID c ≠ "" ∧ APIClient env (http c) = inl err
         ∧ lines = [UIError (Sprintf "Error connecting to Consul agent: %s"
                                     [OpError err])])
      ∨ (∃ client err, ruleID c ≠ "" ∧ APIClient env (http c) = inr client
         ∧ GetBindingRuleIDFromPartial client (ruleID c) = inl err
         ∧ lines = [UIError (Sprintf "Error determining binding rule ID: %v"
                                     [OpError err])])
      ∨ (∃ client rid err, ruleID c ≠ "" ∧ APIClient env (http c) = inr client
         ∧ GetBindingRuleIDFromPartial client (ruleID c) = inr rid
         ∧ BindingRuleRead client rid = inl err
         ∧ lines = [UIError (Sprintf
                       "Error when retrieving current binding rule: %v"
                       [OpError err])])
      ∨ (∃ client rid, ruleID c ≠ "" ∧ APIClient env (http c) = inr client
         ∧ GetBindingRuleIDFromPartial client (ruleID c) = inr rid
         ∧ BindingRuleRead client rid = inr None
         ∧ lines = [UIError (Sprintf "Binding rule not found with ID %q"
                                     [OpString rid])]) ).
Proof.
  intros Hp Hn Hrn.
  destruct (String.eqb_spec (ruleID c) "") as [Hid|Hid].
  { eexists _, _. split; [by apply (Run_missing_id _ _ _ c)|].
    do 2 (split; [reflexivity|]). right; left. done. }
  destruct (APIClient env (http c)) as [err|client] eqn:Hc.
  { eexists _, _. split; [by apply (Run_connect_error _ _ _ c)|].
    do 2 (split; [reflexivity|]). right; right; left. eauto. }
  destruct (GetBindingRuleIDFromPartial client (ruleID c)) as [err|rid] eqn:Hr.
  { eexists _, _. split; [by apply (Run_resolve_error _ _ _ c client)|].
    do 2 (split; [reflexivity|]). right; right; right; left. eauto 10. }
  destruct (BindingRuleRead client rid) as [err|[cur|]] eqn:Hf.
  - eexists _, _. split; [by apply (Run_fetch_error _ _ _ c client rid)|].
    do 2 (split; [reflexivity|]). right; right; right; right; left. eauto 10.
  - assert (Hreach : reaches_plan env args c client rid cur) by done.
    eexists _, _. split; [by apply (Run_missing_role_name _ _ _ c client rid cur)|].
    do 2 (split; [reflexivity|]). left. eauto 10.
  - eexists _, _. split; [by apply (Run_not_found _ _ _ c client)|].
    do 2 (split; [reflexivity|]). right; right; right; right; right. eauto 10.
Qed.

(** C6.  In overwrite mode with an empty role name the planning step, for
    every resolved identifier and current record, prints the missing
    '-role-name' error and the usage and leaves [Run] with status 1 without
    touching heap or store; the run as a whole exits with status 1 and
    submits no update, and when it gets as far as the plan the lines it prints
    are those of the missing role name. *)
Theorem overwrite_requires_roleName (env : Env) (args : list arg) (w : world)
    (c : cmd) :
  Parse (isHTTPFlag env) args = Some c →
  noMerge c = true →
  roleName c = "" →
  (∀ rid l w0, planRule c rid l w0 = (say missing_role_name w0, Return 1))
  ∧ (∃ w' code, Run env args w = (w', Return code)
                ∧ code ≠ 0%Z
                ∧ updates w' = updates w)
  ∧ (∀ client rid cur,
       reaches_plan env args c client rid cur →
       ui (Run env args w).1 = (ui w ++ missing_role_name)%list).
Proof.
  intros Hp Hn Hrn. split; [|split].
  - intros rid l w0. by apply planRule_missing.
  - destruct (Run_overwrite_no_role_name env args w c Hp Hn Hrn)
      as (lines & w' & Hrun & _ & Hu & _).
    exists w', 1%Z. done.
  - intros client rid cur Hreach.
    by rewrite (Run_missing_role_name env args w c client rid cur Hreach Hn Hrn).
Qed.

Lemma overwrite_requires_roleName_witness :
  let args := [StringArg "id" "43cb"; BoolArg "no-merge" true] in
  let c := set_noMerge true (set_ruleID "43cb" init) in
  Parse (isHTTPFlag sample_env) args = Some c
  ∧ noMerge c = true
  ∧ roleName c = ""
  ∧ ∃ w' code, Run sample_env args empty_world = (w', Return code)
               ∧ code ≠ 0%Z
               ∧ ui w' = missing_role_name
               ∧ updates w' = [].
Proof.
  intros args c.
  assert (Hp : Parse (isHTTPFlag sample_env) args = Some c) by reflexivity.
  assert (Hn : noMerge c = true) by reflexivity.
  assert (Hrn : roleName c = "") by reflexivity.
  do 3 (split; [assumption|]).
  destruct (overwrite_requires_roleName sample_env args empty_world c Hp Hn Hrn)
    as (_ & (w' & code & Hrun & Hcode & Hu) & Hlines).
  exists w', code. split; [exact Hrun|]. split; [exact Hcode|].
  split; [|exact Hu].
  assert (Hreach : reaches_plan sample_env args c sample_client
                     "43cb72df-aaa" sample_rule).
  { repeat split; try reflexivity. discriminate. }
  specialize (Hlines _ _ _ Hreach). by rewrite Hrun in Hlines.
Defined.

(** C10.  In overwrite mode with an empty role name, the missing '-role-name'
    error is among the lines a run prints exactly when the command line names
    a rule, the client is built, the identifier resolves and the current
    record is fetched.  When resolution fails, or the fetch fails, or the
    fetch finds no record, the only line printed is that stage's error, and
    the role name is not looked at. *)
Theorem missing_role_name_reported_after_fetch (env : Env) (args : list arg)
    (w : world) (c : cmd) :
  Parse (isHTTPFlag env) args = Some c →
  noMerge c = true →
  roleName c = "" →
  ∃ lines,
    ui (Run env args w).1 = (ui w ++ lines)%list
    ∧ (UIError (Sprintf "Missing required '-role-name' flag" []) ∈ lines
       ↔ ∃ client rid cur, reaches_plan env args c client rid cur)
    ∧ (∀ client err,
         ruleID c ≠ "" → APIClient env (http c) = inr client →
         GetBindingRuleIDFromPartial client (ruleID c) = inl err →
         lines = [UIError (Sprintf "Error determining binding rule ID: %v"
                                   [OpError err])])
    ∧ (∀ client rid err,
         ruleID c ≠ "" → APIClient env (http c) = inr client →
         GetBindingRuleIDFromPartial client (ruleID c) = inr rid →
         BindingRuleRead client rid = inl err →
         lines = [UIError (Sprintf
                     "Error when retrieving current binding rule: %v"
                     [OpError err])])
    ∧ (∀ client rid,
         ruleID c ≠ "" → APIClient env (http c) = inr client →
         GetBindingRuleIDFromPartial client (ruleID c) = inr rid →
         BindingRuleRead client rid = inr None →
         lines = [UIError (Sprintf "Binding rule not found with ID %q"
                                   [OpString rid])]).
Proof.
  intros Hp Hn Hrn.
  destruct (Run_overwrite_no_role_name env args w c Hp Hn Hrn)
    as (lines & w' & Hrun & Hui & _ & Hcase).
  exists lines. rewrite Hrun. split; [exact Hui|].
  assert (Hone : ∀ t, t ≠ Sprintf "Missing required '-role-name' flag" [] →
            UIError (Sprintf "Missing required '-role-name' flag" [])
              ∈ [UIError t] → False).
  { intros t Ht Hin. apply list_elem_of_singleton in Hin. congruence. }
  destruct Hcase as [(-> & client & rid & cur & Hreach)
    | [(Hid & ->) | [(err & Hid & Hc & ->) | [(client & err & Hid & Hc & Hr & ->)
    | [(client & rid & err & Hid & Hc & Hr & Hf & ->)
    | (client & rid & Hid & Hc & Hr & Hf & ->)]]]]].
  - split; [split; [eauto | intros _; left]|].
    destruct Hreach as (_ & _ & Hc & Hr & Hf).
    split_and!; intros; same_stage.
  - split; [split; [intros Hin; exfalso; eapply Hone; [|exact Hin]; discriminate|]|].
    + intros (? & ? & ? & _ & ? & _). done.
    + split_and!; intros; done.
  - split; [split; [intros Hin; exfalso; eapply Hone; [|exact Hin]; discriminate|]|].
    + intros (? & ? & ? & _ & _ & ? & _). same_stage.
    + split_and!; intros; same_stage.
  - split; [split; [intros Hin; exfalso; eapply Hone; [|exact Hin]; discriminate|]|].
    + intros (? & ? & ? & _ & _ & ? & ? & _). same_stage.
    + split_and!; intros; same_stage; done.
  - split; [split; [intros Hin; exfalso; eapply Hone; [|exact Hin]; discriminate|]|].
    + intros (? & ? & ? & _ & _ & ? & ? & ?). same_stage.
    + split_and!; intros; same_stage; done.
  - split; [split; [intros Hin; exfalso; eapply Hone; [|exact Hin]; discriminate|]|].
    + intros (? & ? & ? & _ & _ & ? & ? & ?). same_stage.
    + split_and!; intros; same_stage; done.
Qed.

Lemma missing_role_name_reported_after_fetch_witness :
  let args := [StringArg "id" "7777"; BoolArg "no-merge" true] in
  let c := set_noMerge true (set_ruleID "7777" init) in
  Parse (isHTTPFlag sample_env) args = Some c
  ∧ noMerge c = true
  ∧ roleName c = ""
  ∧ ui (Run sample_env args empty_world).1
    = [UIError (Sprintf "Error determining binding rule ID: %v"
                        [OpError (NotFound "7777")])].
Proof.
  intros args c.
  assert (Hp : Parse (isHTTPFlag sample_env) args = Some c) by reflexivity.
  assert (Hn : noMerge c = true) by reflexivity.
  assert (Hrn : roleName c = "") by reflexivity.
  do 3 (split; [assumption|]).
  destruct (missing_role_name_reported_after_fetch sample_env args empty_world
              c Hp Hn Hrn) as (lines & Hui & _ & Hresolve & _).
  rewrite Hui. simpl.
  apply (Hresolve sample_client (NotFound "7777")); [discriminate|reflexivity..].
Defined.

(** ** Merge planning as a function of its inputs *)

(** C8.  Merge planning is deterministic: planned for the same input and
    presence set from two current records of equal content, wherever they
    live and whatever else the two worlds hold, the resulting records are
    identical.  Planning a second time on the record the first plan left
    behind the pointer changes nothing. *)
Theorem merge_plan_deterministic (c : cmd) (rid rid' : string) (l l' : loc)
    (w w' : world) (cur : ACLBindingRule) :
  noMerge c = false →
  heap w !! l = Some cur →
  heap w' !! l' = Some cur →
  ∃ w1 w1' r,
    planRule c rid l w = (w1, Next l)
    ∧ planRule c rid' l' w' = (w1', Next l')
    ∧ heap w1 !! l = Some r
    ∧ heap w1' !! l' = Some r
    ∧ planRule c rid l w1 = (w1, Next l).
Proof.
  intros Hn Hl Hl'.
  eexists _, _, (merged c cur).
  split; [by apply planRule_merge|].
  split; [by apply planRule_merge|].
  split; [apply lookup_insert_eq|].
  split; [apply lookup_insert_eq|].
  rewrite (planRule_merge c rid l _ (merged c cur) Hn (lookup_insert_eq _ _ _)).
  simpl. rewrite insert_insert_eq. do 3 f_equal.
  unfold merged. simpl.
  destruct (String.eqb (description c) "") eqn:Hd,
    (String.eqb (roleName c) "") eqn:Hr,
    (isFlagSet (flags c) "role-bind-type"),
    (isFlagSet (flags c) "selector"); rewrite ?Hd, ?Hr; reflexivity.
Qed.

Lemma merge_plan_deterministic_witness :
  let c := set_description "new" (set_selector "" init) in
  let w := mkWorld [] [] {[ 1%positive := sample_rule ]} in
  let w' := mkWorld [UIInfo Usage] [sample_rule]
                    {[ 1%positive := mkRule "" "" "" "" "" "";
                       5%positive := sample_rule ]} in
  noMerge c = false
  ∧ heap w !! 1%positive = Some sample_rule
  ∧ heap w' !! 5%positive = Some sample_rule
  ∧ ∃ w1 w1' r,
      planRule c "43cb72df-aaa" 1%positive w = (w1, Next 1%positive)
      ∧ planRule c "51aa0000-bbb" 5%positive w' = (w1', Next 5%positive)
      ∧ heap w1 !! 1%positive = Some r
      ∧ heap w1' !! 5%positive = Some r
      ∧ planRule c "43cb72df-aaa" 1%positive w1 = (w1, Next 1%positive).
Proof.
  intros c w w'.
  assert (Hn : noMerge c = false) by reflexivity.
  assert (Hl : heap w !! 1%positive = Some sample_rule) by reflexivity.
  assert (Hl' : heap w' !! 5%positive = Some sample_rule) by reflexivity.
  do 3 (split; [assumption|]).
  exact (merge_plan_deterministic c "43cb72df-aaa" "51aa0000-bbb" 1%positive
           5%positive w w' sample_rule Hn Hl Hl').
Defined.

(** C9.  In merge mode, when description and roleName are empty and neither
    role-bind-type nor selector is in the presence set, the plan returns the
    pointer to the current record and writes nothing: the planned record is
    the fetched current record, equal to it in every field, and the world is
    as before. *)
Theorem merge_nothing_supplied (c : cmd) (rid : string) (l : loc) (w : world)
    (cur : ACLBindingRule) :
  noMerge c = false →
  description c = "" →
  roleName c = "" →
  ("role-bind-type" ∉ actual (flags c)) →
  ("selector" ∉ actual (flags c)) →
  heap w !! l = Some cur →
  planRule c rid l w = (w, Next l)
  ∧ merged c cur = cur
  ∧ planned c rid cur = cur.
Proof.
  intros Hn Hd Hr Hb Hs Hl.
  apply isFlagSet_false in Hb, Hs.
  assert (Hm : merged c cur = cur).
  { unfold merged. rewrite Hd, Hr, Hb, Hs. by destruct cur. }
  split; [|split; [done|]].
  - rewrite (planRule_merge c rid l w cur Hn Hl), Hm.
    by rewrite (insert_id _ _ _ Hl), world_eq.
  - unfold planned. by rewrite Hn.
Qed.

Lemma merge_nothing_supplied_witness :
  let c := set_ruleID "43cb" init in
  let w := mkWorld [] [] {[ 1%positive := sample_rule ]} in
  noMerge c = false
  ∧ description c = ""
  ∧ roleName c = ""
  ∧ ("role-bind-type" ∉ actual (flags c))
  ∧ ("selector" ∉ actual (flags c))
  ∧ heap w !! 1%positive = Some sample_rule
  ∧ planRule c "43cb72df-aaa" 1%positive w = (w, Next 1%positive).
Proof.
  intros c w.
  assert (Hn : noMerge c = false) by reflexivity.
  assert (Hd : description c = "") by reflexivity.
  assert (Hr : roleName c = "") by reflexivity.
  assert (Hb : "role-bind-type" ∉ actual (flags c)) by by_computation.
  assert (Hs : "selector" ∉ actual (flags c)) by by_computation.
  assert (Hl : heap w !! 1%positive = Some sample_rule) by reflexivity.
  do 6 (split; [assumption|]).
  apply (merge_nothing_supplied c "43cb72df-aaa" 1%positive w sample_rule
           Hn Hd Hr Hb Hs Hl).
Defined.

(** The same from the command line to the store: with only [-id] passed, the
    record submitted is the record fetched. *)
Example merge_nothing_supplied_run :
  updates (Run sample_env [StringArg "id" "43cb"] empty_world).1 = [sample_rule].
Proof. vm_compute. reflexivity. Qed.

(** * Further properties of the command *)

(** ** The three ways a run ends *)

Lemma say_nothing (w : world) : say [] w = w.
Proof. unfold say. by rewrite app_nil_r, world_eq. Qed.

(** A run stops before the plan with at most one error line, or stops in the
    plan for want of a role name, or submits the planned record. *)
Lemma Run_cases (env : Env) (args : list arg) (w : world) :
  (∃ lines,
     Run env args w = (say lines w, Return 1)
     ∧ ((lines = [] ∧ Parse (isHTTPFlag env) args = None)
        ∨ ∃ t, lines = [UIError t])
     ∧ ∀ c client rid cur, ¬ reaches_plan env args c client rid cur)
  ∨ (∃ c client rid cur,
       reaches_plan env args c client rid cur
       ∧ noMerge c = true ∧ roleName c = ""
       ∧ Run env args w
         = (say missing_role_name
              (mkWorld (ui w) (updates w)
                       (<[fresh (dom (heap w)) := cur]> (heap w))),
            Return 1))
  ∨ (∃ c client rid cur,
       reaches_plan env args c client rid cur
       ∧ (noMerge c = true → roleName c ≠ "")
       ∧ Run env args w
         = match BindingRuleUpdate client (planned c rid cur) with
           | inl err =>
               (say [UIError (Sprintf "Error updating binding rule %q: %v"
                                      [OpString rid; OpError err])]
                    (submitted c rid cur w), Return 1)
           | inr updated =>
               (say [UIInfo (Sprintf "Binding rule updated successfully" []);
                     UIRule updated (showMeta c)]
                    (submitted c rid cur w), Return 0)
           end).
Proof.
  destruct (Parse (isHTTPFlag env) args) as [c|] eqn:Hp.
  2:{ left. exists []. rewrite say_nothing.
      split; [by apply Run_parse_error|]. split; [by left|].
      intros c client rid cur (H & _). congruence. }
  destruct (String.eqb_spec (ruleID c) "") as [Hid|Hid].
  { left. eexists. split; [by apply (Run_missing_id _ _ _ c)|].
    split; [right; by eexists|].
    intros c' client rid cur (H & Hid' & _). congruence. }
  destruct (APIClient env (http c)) as [err|client] eqn:Hc.
  { left. eexists. split; [by apply (Run_connect_error _ _ _ c)|].
    split; [right; by eexists|].
    intros c' client rid cur (H & _ & Hc' & _). congruence. }
  destruct (GetBindingRuleIDFromPartial client (ruleID c)) as [err|rid] eqn:Hr.
  { left. eexists. split; [by apply (Run_resolve_error _ _ _ c client)|].
    split; [right; by eexists|].
    intros c' client' rid cur (H & _ & Hc' & Hr' & _). same_stage. }
  destruct (BindingRuleRead client rid) as [err|[cur|]] eqn:Hf.
  - left. eexists. split; [by apply (Run_fetch_error _ _ _ c client rid)|].
    split; [right; by eexists|].
    intros c' client' rid' cur (H & _ & Hc' & Hr' & Hf'). same_stage.
  - assert (Hreach : reaches_plan env args c client rid cur) by done.
    right.
    destruct (decide (noMerge c = true ∧ roleName c = "")) as [[Hn Hrn]|Hno].
    + left. exists c, client, rid, cur.
      split; [done|]. split; [done|]. split; [done|].
      by apply (Run_missing_role_name _ _ _ c client rid cur).
    + assert (Hplan : noMerge c = true → roleName c ≠ "") by (intros ? ?; auto).
      right. exists c, client, rid, cur.
      split; [done|]. split; [done|].
      by apply (Run_submit _ _ _ c client rid cur Hreach).
  - left. eexists. split; [by apply (Run_not_found _ _ _ c client)|].
    split; [right; by eexists|].
    intros c' client' rid' cur (H & _ & Hc' & Hr' & Hf'). same_stage.
Qed.

(** ** Presence *)

(** X1.  On the command built by [New] no flag is set.  After a successful
    parse [isFlagSet] answers true for a name exactly when the command line
    passes that flag, whatever value it passes, be it the empty string or
    the flag's own default. *)
Theorem isFlagSet_reports_passed_flags (h : string → bool) (args : list arg)
    (c : cmd) :
  Parse h args = Some c →
  (∀ n, isFlagSet (flags init) n = false)
  ∧ (∀ n, isFlagSet (flags c) n = true ↔ passed n args)
  ∧ (∀ n, isFlagSet (flags c) n = false ↔ ¬ passed n args).
Proof.
  intros Hp. split; [|split].
  - intros n. apply isFlagSet_false. simpl. apply not_elem_of_empty.
  - intros n. by apply (Parse_presence h).
  - intros n. rewrite <- (Parse_presence h args c n Hp).
    destruct (isFlagSet (flags c) n); split; congruence.
Qed.

Lemma isFlagSet_reports_passed_flags_witness :
  let args := [StringArg "id" "43cb"; StringArg "role-bind-type" "service"] in
  let c := set_roleBindType "service" (set_ruleID "43cb" init) in
  Parse (λ _, false) args = Some c
  ∧ roleBindType c = roleBindType init
  ∧ isFlagSet (flags c) "role-bind-type" = true
  ∧ isFlagSet (flags c) "selector" = false.
Proof.
  intros args c.
  assert (Hp : Parse (λ _, false) args = Some c) by reflexivity.
  split; [exact Hp|]. split; [reflexivity|].
  destruct (isFlagSet_reports_passed_flags (λ _, false) args c Hp)
    as (_ & Hyes & Hno).
  split.
  - apply Hyes. unfold passed. by_computation.
  - apply Hno. unfold passed. by_computation.
Defined.

(** ** The run as the user and the store see it *)



(** X3.  A run calls the store's update at most once and never retries.  It
    submits exactly when the current record was fetched and, under overwrite,
    a role name was given; what it submits then is the planned record, also
    when the store goes on to reject it.  In every other run the list of
    submissions is as before. *)
Theorem Run_submits_at_most_once (env : Env) (args : list arg) (w : world) :
  (updates (Run env args w).1 = updates w
   ∧ ¬ ∃ c client rid cur,
         reaches_plan env args c client rid cur
         ∧ (noMerge c = true → roleName c ≠ ""))
  ∨ (∃ c client rid cur,
       reaches_plan env args c client rid cur
       ∧ (noMerge c = true → roleName c ≠ "")
       ∧ updates (Run env args w).1 = (updates w ++ [planned c rid cur])%list).
Proof.
  destruct (Run_cases env args w)
    as [(lines & Hrun & _ & Hnever)
       | [(c & client & rid & cur & Hreach & Hn & Hrn & Hrun)
         | (c & client & rid & cur & Hreach & Hplan & Hrun)]].
  - left. rewrite Hrun. split; [done|].
    intros (c & client & rid & cur & Hreach & _). by apply (Hnever c client rid cur).
  - left. rewrite Hrun. split; [done|].
    intros (c' & client' & rid' & cur' & Hreach' & Hplan).
    destruct (reaches_plan_inj _ _ _ _ _ _ _ _ _ _ Hreach Hreach')
      as (<- & _). by apply Hplan.
  - right. exists c, client, rid, cur. split; [done|]. split; [done|].
    rewrite Hrun. by destruct (BindingRuleUpdate client _).
Qed.

(** X4.  What a run prints.  With exit status 0 it prints two lines after
    what was there: the success message and the record the store returned
    from the update (not the planned one), shown with metadata as [-meta]
    says.  With exit status 1 it prints at most two lines, all of them
    errors; a command line that does not parse prints nothing through the
    user interface. *)
Theorem Run_output (env : Env) (args : list arg) (w : world) :
  ∃ lines w' code,
    Run env args w = (w', Return code)
    ∧ ui w' = (ui w ++ lines)%list
    ∧ (code = 0%Z →
       ∃ c client rid cur updated,
         reaches_plan env args c client rid cur
         ∧ BindingRuleUpdate client (planned c rid cur) = inr updated
         ∧ lines = [UIInfo (Sprintf "Binding rule updated successfully" []);
                    UIRule updated (showMeta c)])
    ∧ (code = 1%Z →
       (length lines ≤ 2)%nat ∧ ∀ line, line ∈ lines → ∃ t, line = UIError t)
    ∧ (code = 0 ∨ code = 1)%Z
    ∧ (Parse (isHTTPFlag env) args = None → lines = []).
Proof.
  destruct (Run_cases env args w)
    as [(lines & Hrun & Hlines & Hnever)
       | [(c & client & rid & cur & Hreach & Hn & Hrn & Hrun)
         | (c & client & rid & cur & Hreach & Hplan & Hrun)]].
  - exists lines, (say lines w), 1%Z. split; [done|]. split; [done|].
    split; [discriminate|]. split; [|split; [by right|]].
    + intros _. destruct Hlines as [[-> _]|[t ->]]; simpl.
      * split; [lia|]. intros line Hin. by apply elem_of_nil in Hin.
      * split; [lia|]. intros line Hin.
        apply list_elem_of_singleton in Hin. eauto.
    + intros Hp. destruct Hlines as [[-> _]|[t ->]]; [done|].
      exfalso. rewrite (Run_parse_error env args w Hp) in Hrun.
      injection Hrun as Hw. apply (f_equal ui) in Hw. simpl in Hw.
      apply (f_equal length) in Hw. rewrite length_app in Hw. simpl in Hw. lia.
  - eexists missing_role_name, _, 1%Z. split; [exact Hrun|]. split; [done|].
    split; [discriminate|]. split; [|split; [by right|]].
    + intros _. split; [simpl; lia|]. intros line Hin. unfold missing_role_name in Hin.
      apply elem_of_cons in Hin as [->|Hin]; [eauto|].
      apply list_elem_of_singleton in Hin. eauto.
    + intros Hp. destruct Hreach as (Hp' & _). congruence.
  - destruct (BindingRuleUpdate client (planned c rid cur)) as [err|u] eqn:Hu.
    + eexists _, _, 1%Z. split; [exact Hrun|]. split; [done|].
      split; [discriminate|]. split; [|split; [by right|]].
      * intros _. split; [simpl; lia|]. intros line Hin.
        apply list_elem_of_singleton in Hin. eauto.
      * intros Hp. destruct Hreach as (Hp' & _). congruence.
    + eexists _, _, 0%Z. split; [exact Hrun|]. split; [done|].
      split; [|split; [discriminate|split; [by left|]]].
      * intros _. exists c, client, rid, cur, u. done.
      * intros Hp. destruct Hreach as (Hp' & _). congruence.
Qed.

(** ** Objects *)

(** X5.  A run never writes to an object that existed before it: every
    record the heap held is still there, unchanged, when the run ends,
    however it ends. *)
Theorem Run_keeps_existing_objects (env : Env) (args : list arg) (w : world)
    (l : loc) (r : ACLBindingRule) :
  heap w !! l = Some r →
  heap (Run env args w).1 !! l = Some r.
Proof.
  intros Hl.
  pose proof (fresh_unused w) as Hfresh.
  assert (Hne : fresh (dom (heap w)) ≠ l) by congruence.
  destruct (Run_cases env args w)
    as [(lines & Hrun & _ & _)
       | [(c & client & rid & cur & _ & _ & _ & Hrun)
         | (c & client & rid & cur & _ & _ & Hrun)]]; rewrite Hrun.
  - done.
  - simpl. by rewrite lookup_insert_ne.
  - assert (Hsub : heap (submitted c rid cur w) !! l = Some r).
    { unfold submitted. simpl. destruct (noMerge c).
      - rewrite lookup_insert_ne.
        + by rewrite lookup_insert_ne.
        + intros Heq.
          pose proof (is_fresh (dom (<[fresh (dom (heap w)) := cur]> (heap w))))
            as Hnew.
          rewrite Heq in Hnew. apply Hnew, elem_of_dom.
          rewrite lookup_insert_ne by done. eauto.
      - rewrite lookup_insert_ne by done. by rewrite lookup_insert_ne. }
    by destruct (BindingRuleUpdate client _).
Qed.

Lemma Run_keeps_existing_objects_witness :
  let w := mkWorld [] [] {[ 1%positive := sample_rule ]} in
  let args := [StringArg "id" "43cb"; StringArg "description" "new"] in
  heap w !! 1%positive = Some sample_rule
  ∧ heap (Run sample_env args w).1 !! 1%positive = Some sample_rule.
Proof.
  intros w args.
  assert (Hl : heap w !! 1%positive = Some sample_rule) by reflexivity.
  split; [exact Hl|].
  exact (Run_keeps_existing_objects sample_env args w 1%positive sample_rule Hl).
Defined.



(** ** What the plan keeps and what it drops *)

(** X7.  In overwrite mode the plan reads nothing of the current record but
    its providerRef: from two current records with the same [IDPName],
    however else they differ (their ids included), the same record is
    planned. *)
Theorem overwrite_reads_only_IDPName (c : cmd) (rid : string) (l l' : loc)
    (w w' : world) (cur cur' : ACLBindingRule) :
  noMerge c = true →
  roleName c ≠ "" →
  heap w !! l = Some cur →
  heap w' !! l' = Some cur' →
  IDPName cur = IDPName cur' →
  ∃ w1 w1' p p' r,
    planRule c rid l w = (w1, Next p)
    ∧ planRule c rid l' w' = (w1', Next p')
    ∧ heap w1 !! p = Some r
    ∧ heap w1' !! p' = Some r.
Proof.
  intros Hn Hrn Hl Hl' Hidp.
  eexists _, _, _, _, (overwritten c rid cur).
  split; [by apply planRule_overwrite|].
  split; [by apply planRule_overwrite|].
  split; [apply lookup_insert_eq|].
  simpl. rewrite lookup_insert_eq. unfold overwritten. by rewrite Hidp.
Qed.

Lemma overwrite_reads_only_IDPName_witness :
  let c := set_roleName "web" (set_noMerge true (set_ruleID "43cb" init)) in
  let other := mkRule "ffffffff-000" "kube" "" "service" "db" "y==2" in
  let w := mkWorld [] [] {[ 1%positive := sample_rule ]} in
  let w' := mkWorld [] [] {[ 7%positive := other ]} in
  noMerge c = true
  ∧ roleName c ≠ ""
  ∧ heap w !! 1%positive = Some sample_rule
  ∧ heap w' !! 7%positive = Some other
  ∧ IDPName sample_rule = IDPName other
  ∧ ∃ w1 w1' p p' r,
      planRule c "43cb72df-aaa" 1%positive w = (w1, Next p)
      ∧ planRule c "43cb72df-aaa" 7%positive w' = (w1', Next p')
      ∧ heap w1 !! p = Some r
      ∧ heap w1' !! p' = Some r.
Proof.
  intros c other w w'.
  assert (Hn : noMerge c = true) by reflexivity.
  assert (Hrn : roleName c ≠ "") by discriminate.
  assert (Hl : heap w !! 1%positive = Some sample_rule) by reflexivity.
  assert (Hl' : heap w' !! 7%positive = Some other) by reflexivity.
  assert (Hidp : IDPName sample_rule = IDPName other) by reflexivity.
  do 5 (split; [assumption|]).
  exact (overwrite_reads_only_IDPName c "43cb72df-aaa" 1%positive 7%positive
           w w' sample_rule other Hn Hrn Hl Hl' Hidp).
Defined.

(** X8.  Merge mode cannot blank a description or a role name: the planned
    description is empty only when the current one is empty and none was
    supplied, and likewise the role name.  (Selector and roleBindType can be
    blanked, by passing their flag with an empty value.) *)
Theorem merge_never_blanks (c : cmd) (rid : string) (l : loc) (w : world)
    (cur : ACLBindingRule) :
  noMerge c = false →
  heap w !! l = Some cur →
  ∃ w1 r,
    planRule c rid l w = (w1, Next l)
    ∧ heap w1 !! l = Some r
    ∧ (Description r = "" ↔ Description cur = "" ∧ description c = "")
    ∧ (RoleName r = "" ↔ RoleName cur = "" ∧ roleName c = "")
    ∧ (Description cur ≠ "" → Description r ≠ "")
    ∧ (RoleName cur ≠ "" → RoleName r ≠ "").
Proof.
  intros Hn Hl. eexists _, (merged c cur).
  split; [by apply planRule_merge|].
  split; [apply lookup_insert_eq|]. simpl.
  destruct (String.eqb_spec (description c) "") as [Hd|Hd];
    destruct (String.eqb_spec (roleName c) "") as [Hr|Hr];
    split_and!; try tauto; try (split; [congruence | tauto]).
Qed.

Lemma merge_never_blanks_witness :
  let c := set_roleName "" (set_description "" (set_ruleID "43cb" init)) in
  let w := mkWorld [] [] {[ 1%positive := sample_rule ]} in
  noMerge c = false
  ∧ heap w !! 1%positive = Some sample_rule
  ∧ ∃ w1 r,
      planRule c "43cb72df-aaa" 1%positive w = (w1, Next 1%positive)
      ∧ heap w1 !! 1%positive = Some r
      ∧ Description r ≠ ""
      ∧ RoleName r ≠ "".
Proof.
  intros c w.
  assert (Hn : noMerge c = false) by reflexivity.
  assert (Hl : heap w !! 1%positive = Some sample_rule) by reflexivity.
  do 2 (split; [assumption|]).
  destruct (merge_never_blanks c "43cb72df-aaa" 1%positive w sample_rule Hn Hl)
    as (w1 & r & Hplan & Hr & _ & _ & Hd & Hrn).
  exists w1, r. split; [exact Hplan|]. split; [exact Hr|].
  split; [apply Hd | apply Hrn]; discriminate.
Defined.

(** X9.  A value passed on the command line reaches the store as it is, in
    either mode, whenever a record is submitted: the last [-selector] and
    the last [-role-bind-type] always, even when empty or no legal bind type,
    and the last [-description] and [-role-name] when not empty.  The command
    validates none of them. *)
Theorem passed_values_reach_store (env : Env) (w : world) (c : cmd)
    (client : Client) (rid : string) (cur : ACLBindingRule)
    (pre post : list arg) (n v : string) :
  reaches_plan env (pre ++ StringArg n v :: post) c client rid cur →
  (noMerge c = true → roleName c ≠ "") →
  ¬ passed n post →
  ∃ r : ACLBindingRule,
    updates (Run env (pre ++ StringArg n v :: post) w).1
    = (updates w ++ [r])%list
    ∧ (n = "selector" → Selector r = v)
    ∧ (n = "role-bind-type" → RoleBindType r = v)
    ∧ (n = "description" → v ≠ "" → Description r = v)
    ∧ (n = "role-name" → v ≠ "" → RoleName r = v).
Proof.
  intros Hreach Hplan Hpost.
  pose proof Hreach as (Hp & _).
  destruct (Parse_supplied _ pre post n v c Hp Hpost)
    as (_ & Hd & Hs & Hb & Hr).
  assert (Hin : ∀ m, m = n → isFlagSet (flags c) m = true).
  { intros m ->. apply (Parse_presence _ _ _ _ Hp). unfold passed.
    rewrite fmap_app, fmap_cons, elem_of_app, elem_of_cons. auto. }
  exists (planned c rid cur). split.
  - rewrite (Run_submit env _ w c client rid cur Hreach Hplan).
    by destruct (BindingRuleUpdate client _).
  - unfold planned. destruct (noMerge c); simpl; split_and!; intros Hn.
    + by apply Hs.
    + by apply Hb.
    + intros _. by apply Hd.
    + intros _. by apply Hr.
    + rewrite (Hin "selector") by done. by apply Hs.
    + rewrite (Hin "role-bind-type") by done. by apply Hb.
    + intros Hv. rewrite (Hd Hn).
      apply String.eqb_neq in Hv. by rewrite Hv.
    + intros Hv. rewrite (Hr Hn).
      apply String.eqb_neq in Hv. by rewrite Hv.
Qed.

Lemma passed_values_reach_store_witness :
  let pre := [StringArg "id" "43cb"; StringArg "role-bind-type" "existing"] in
  let post := [StringArg "selector" "x==2"] in
  let c := set_selector "x==2"
             (set_roleBindType "no such type"
                (set_roleBindType "existing" (set_ruleID "43cb" init))) in
  reaches_plan sample_env (pre ++ StringArg "role-bind-type" "no such type" :: post)
    c sample_client "43cb72df-aaa" sample_rule
  ∧ (noMerge c = true → roleName c ≠ "")
  ∧ ¬ passed "role-bind-type" post
  ∧ ∃ r : ACLBindingRule,
      updates (Run sample_env
                 (pre ++ StringArg "role-bind-type" "no such type" :: post)
                 empty_world).1 = [r]
      ∧ RoleBindType r = "no such type".
Proof.
  intros pre post c.
  assert (Hreach : reaches_plan sample_env
            (pre ++ StringArg "role-bind-type" "no such type" :: post)
            c sample_client "43cb72df-aaa" sample_rule).
  { repeat split; try reflexivity. discriminate. }
  assert (Hplan : noMerge c = true → roleName c ≠ "") by discriminate.
  assert (Hpost : ¬ passed "role-bind-type" post)
    by (unfold passed; by_computation).
  do 3 (split; [assumption|]).
  destruct (passed_values_reach_store sample_env empty_world c sample_client
              "43cb72df-aaa" sample_rule pre post "role-bind-type"
              "no such type" Hreach Hplan Hpost) as (r & Hu & _ & Hb & _).
  exists r. split; [exact Hu | by apply Hb].
Defined.

(** X10.  With every editable field supplied (description and role name not
    empty, [-role-bind-type] and [-selector] passed) the mode makes no
    difference to the planned record, provided the current record carries the
    resolved identifier: overwrite and merge plan records with the same
    content. *)
Theorem modes_agree_when_all_supplied (c : cmd) (rid : string) (l : loc)
    (w : world) (cur : ACLBindingRule) :
  description c ≠ "" →
  roleName c ≠ "" →
  ("role-bind-type" ∈ actual (flags c)) →
  ("selector" ∈ actual (flags c)) →
  heap w !! l = Some cur →
  ID cur = rid →
  ∃ w1 w2 p r,
    planRule (set_noMerge true c) rid l w = (w1, Next p)
    ∧ planRule (set_noMerge false c) rid l w = (w2, Next l)
    ∧ heap w1 !! p = Some r
    ∧ heap w2 !! l = Some r.
Proof.
  intros Hd Hr Hb Hs Hl Hid.
  eexists _, _, _, (overwritten (set_noMerge true c) rid cur).
  split; [by apply planRule_overwrite|].
  split; [by apply planRule_merge|].
  split; [apply lookup_insert_eq|].
  simpl. rewrite lookup_insert_eq. f_equal.
  unfold merged, overwritten. simpl.
  assert (Hb' : isFlagSet (mark "no-merge" (flags c)) "role-bind-type" = true).
  { apply isFlagSet_spec. simpl. apply elem_of_union. by right. }
  assert (Hs' : isFlagSet (mark "no-merge" (flags c)) "selector" = true).
  { apply isFlagSet_spec. simpl. apply elem_of_union. by right. }
  apply String.eqb_neq in Hd, Hr.
  by rewrite Hd, Hr, Hb', Hs', Hid.
Qed.

Lemma modes_agree_when_all_supplied_witness :
  let c := set_selector "" (set_roleBindType "service"
             (set_roleName "web" (set_description "d"
                (set_ruleID "43cb" init)))) in
  let w := mkWorld [] [] {[ 1%positive := sample_rule ]} in
  description c ≠ ""
  ∧ roleName c ≠ ""
  ∧ ("role-bind-type" ∈ actual (flags c))
  ∧ ("selector" ∈ actual (flags c))
  ∧ heap w !! 1%positive = Some sample_rule
  ∧ ID sample_rule = "43cb72df-aaa"
  ∧ ∃ w1 w2 p r,
      planRule (set_noMerge true c) "43cb72df-aaa" 1%positive w = (w1, Next p)
      ∧ planRule (set_noMerge false c) "43cb72df-aaa" 1%positive w
        = (w2, Next 1%positive)
      ∧ heap w1 !! p = Some r
      ∧ heap w2 !! 1%positive = Some r.
Proof.
  intros c w.
  assert (Hd : description c ≠ "") by discriminate.
  assert (Hr : roleName c ≠ "") by discriminate.
  assert (Hb : "role-bind-type" ∈ actual (flags c)) by by_computation.
  assert (Hs : "selector" ∈ actual (flags c)) by by_computation.
  assert (Hl : heap w !! 1%positive = Some sample_rule) by reflexivity.
  assert (Hid : ID sample_rule = "43cb72df-aaa") by reflexivity.
  do 6 (split; [assumption|]).
  exact (modes_agree_when_all_supplied c "43cb72df-aaa" 1%positive w
           sample_rule Hd Hr Hb Hs Hl Hid).
Defined.

(** ** Composition *)

(** X11.  Two merges that supply different fields commute: planned one after
    the other on the same current record, in either order, they leave the
    same record behind the pointer (and the same world). *)
Theorem merges_of_distinct_fields_commute (c1 c2 : cmd) (rid : string)
    (l : loc) (w : world) (cur : ACLBindingRule) :
  noMerge c1 = false →
  noMerge c2 = false →
  heap w !! l = Some cur →
  description c1 = "" ∨ description c2 = "" →
  roleName c1 = "" ∨ roleName c2 = "" →
  ("role-bind-type" ∉ actual (flags c1)) ∨ ("role-bind-type" ∉ actual (flags c2)) →
  ("selector" ∉ actual (flags c1)) ∨ ("selector" ∉ actual (flags c2)) →
  ∃ w1 w2 w12,
    planRule c1 rid l w = (w1, Next l)
    ∧ planRule c2 rid l w1 = (w12, Next l)
    ∧ planRule c2 rid l w = (w2, Next l)
    ∧ planRule c1 rid l w2 = (w12, Next l).
Proof.
  intros Hn1 Hn2 Hl Hd Hr Hb Hs.
  eexists _, _, _.
  split; [by apply planRule_merge|].
  split; [by apply planRule_merge, lookup_insert_eq|].
  split; [by apply planRule_merge|].
  rewrite (planRule_merge c1 rid l _ (merged c2 cur) Hn1 (lookup_insert_eq _ _ _)).
  simpl. rewrite !insert_insert_eq. do 3 f_equal.
  unfold merged. simpl.
  rewrite <- !isFlagSet_false in Hb, Hs.
  destruct Hd as [Hd|Hd], Hr as [Hr|Hr], Hb as [Hb|Hb], Hs as [Hs|Hs];
    rewrite Hd, Hr, Hb, Hs; simpl;
    repeat match goal with
           | |- context [String.eqb ?a ""] => destruct (String.eqb a "")
           | |- context [isFlagSet ?f ?n] => destruct (isFlagSet f n)
           end; reflexivity.
Qed.

Lemma merges_of_distinct_fields_commute_witness :
  let c1 := set_description "new" init in
  let c2 := set_selector "" init in
  let w := mkWorld [] [] {[ 1%positive := sample_rule ]} in
  noMerge c1 = false
  ∧ noMerge c2 = false
  ∧ heap w !! 1%positive = Some sample_rule
  ∧ ∃ w1 w2 w12,
      planRule c1 "43cb72df-aaa" 1%positive w = (w1, Next 1%positive)
      ∧ planRule c2 "43cb72df-aaa" 1%positive w1 = (w12, Next 1%positive)
      ∧ planRule c2 "43cb72df-aaa" 1%positive w = (w2, Next 1%positive)
      ∧ planRule c1 "43cb72df-aaa" 1%positive w2 = (w12, Next 1%positive).
Proof.
  intros c1 c2 w.
  assert (Hn1 : noMerge c1 = false) by reflexivity.
  assert (Hn2 : noMerge c2 = false) by reflexivity.
  assert (Hl : heap w !! 1%positive = Some sample_rule) by reflexivity.
  do 3 (split; [assumption|]).
  apply (merges_of_distinct_fields_commute c1 c2 "43cb72df-aaa" 1%positive w
           sample_rule Hn1 Hn2 Hl).
  - right; reflexivity.
  - left; reflexivity.
  - left. by_computation.
  - left. by_computation.
Defined.

(** ** The [-meta] flag *)

Lemma parseFrom_snoc (h : string → bool) (args : list arg) (a : arg) :
  ∀ c, parseFrom h c (args ++ [a])
       = match parseFrom h c args with
         | Some c' => parseOne h c' a
         | None => None
         end.
Proof.
  induction args as [|x args IH]; intros c; simpl.
  - by destruct (parseOne h c a).
  - destruct (parseOne h c x); [apply IH | done].
Qed.

Lemma isFlagSet_mark_ne (fs : FlagSet) (m n : string) :
  n ≠ m → isFlagSet (mark m fs) n = isFlagSet fs n.
Proof.
  intros Hne. destruct (isFlagSet fs n) eqn:E.
  - apply isFlagSet_spec. apply isFlagSet_spec in E. simpl.
    apply elem_of_union. by right.
  - apply isFlagSet_false. apply isFlagSet_false in E. simpl.
    rewrite elem_of_union, elem_of_singleton. tauto.
Qed.

Lemma planned_set_showMeta (b : bool) (c : cmd) (rid : string)
    (cur : ACLBindingRule) :
  planned (set_showMeta b c) rid cur = planned c rid cur.
Proof.
  unfold planned, merged, overwritten. simpl.
  by rewrite !isFlagSet_mark_ne by discriminate.
Qed.

Lemma submitted_set_showMeta (b : bool) (c : cmd) (rid : string)
    (cur : ACLBindingRule) (w : world) :
  submitted (set_showMeta b c) rid cur w = submitted c rid cur w.
Proof.
  unfold submitted. rewrite planned_set_showMeta. simpl.
  unfold merged, overwritten. simpl.
  by rewrite !isFlagSet_mark_ne by discriminate.
Qed.

(** X12.  [-meta] changes nothing but the way the updated record is shown:
    with [-meta] or [-meta=false] added at the end of a command line, the run
    has the same exit status, submits the same, leaves the same heap and
    prints the same lines, except that the record of a successful update is
    printed with the metadata setting just given. *)
Theorem meta_only_changes_the_printout (env : Env) (args : list arg)
    (b : bool) (w : world) :
  let r := Run env args w in
  let r' := Run env (args ++ [BoolArg "meta" b]) w in
  r'.2 = r.2
  ∧ updates r'.1 = updates r.1
  ∧ heap r'.1 = heap r.1
  ∧ (ui r'.1 = ui r.1
     ∨ ∃ updated m,
         r.2 = Return 0
         ∧ ui r.1 = (ui w ++ [UIInfo (Sprintf "Binding rule updated successfully" []);
                              UIRule updated m])%list
         ∧ ui r'.1 = (ui w ++ [UIInfo (Sprintf "Binding rule updated successfully" []);
                               UIRule updated b])%list).
Proof.
  intros r r'. unfold r, r'. clear r r'.
  assert (Hparse : Parse (isHTTPFlag env) (args ++ [BoolArg "meta" b])
                   = set_showMeta b <$> Parse (isHTTPFlag env) args).
  { unfold Parse. rewrite parseFrom_snoc.
    by destruct (parseFrom (isHTTPFlag env) init args). }
  destruct (Parse (isHTTPFlag env) args) as [c|] eqn:Hp; simpl in Hparse.
  2:{ rewrite !Run_parse_error by done. auto. }
  destruct (String.eqb_spec (ruleID c) "") as [Hid|Hid].
  { rewrite (Run_missing_id _ _ _ _ Hp Hid).
    rewrite (Run_missing_id _ _ _ _ Hparse Hid). auto. }
  destruct (APIClient env (http c)) as [err|client] eqn:Hc.
  { rewrite (Run_connect_error _ _ _ _ err Hp Hid Hc).
    rewrite (Run_connect_error _ _ _ _ err Hparse Hid Hc). auto. }
  destruct (GetBindingRuleIDFromPartial client (ruleID c)) as [err|rid] eqn:Hr.
  { rewrite (Run_resolve_error _ _ _ _ client err Hp Hid Hc Hr).
    rewrite (Run_resolve_error _ _ _ _ client err Hparse Hid Hc Hr). auto. }
  destruct (BindingRuleRead client rid) as [err|[cur|]] eqn:Hf.
  - rewrite (Run_fetch_error _ _ _ _ client rid err Hp Hid Hc Hr Hf).
    rewrite (Run_fetch_error _ _ _ _ client rid err Hparse Hid Hc Hr Hf). auto.
  - assert (Hreach : reaches_plan env args c client rid cur) by done.
    assert (Hreach' : reaches_plan env (args ++ [BoolArg "meta" b])
                        (set_showMeta b c) client rid cur) by done.
    destruct (decide (noMerge c = true ∧ roleName c = "")) as [[Hn Hrn]|Hno].
    + rewrite (Run_missing_role_name _ _ _ _ _ _ _ Hreach Hn Hrn).
      rewrite (Run_missing_role_name _ _ _ _ _ _ _ Hreach' Hn Hrn). auto.
    + assert (Hplan : noMerge c = true → roleName c ≠ "") by (intros ? ?; auto).
      rewrite (Run_submit _ _ _ _ _ _ _ Hreach Hplan).
      rewrite (Run_submit _ _ _ _ _ _ _ Hreach' Hplan).
      rewrite planned_set_showMeta, submitted_set_showMeta.
      destruct (BindingRuleUpdate client (planned c rid cur)) as [err|u];
        simpl; [auto|].
      split_and!; try done. right. by exists u, (showMeta c).
  - rewrite (Run_not_found _ _ _ _ client rid Hp Hid Hc Hr Hf).
    rewrite (Run_not_found _ _ _ _ client rid Hparse Hid Hc Hr Hf). auto.
Qed.

(** ** Merge mode validates nothing *)

(** X13.  In merge mode the command has no check of its own: once the current
    record is fetched a record is always submitted, whatever the command line
    holds.  When the command line supplies no editable field, what is sent is
    the fetched record itself, field for field. *)
Theorem merge_always_submits (env : Env) (args : list arg) (w : world)
    (c : cmd) (client : Client) (rid : string) (cur : ACLBindingRule) :
  reaches_plan env args c client rid cur →
  noMerge c = false →
  updates (Run env args w).1 = (updates w ++ [merged c cur])%list
  ∧ (description c = "" → roleName c = "" →
     ¬ passed "role-bind-type" args → ¬ passed "selector" args →
     updates (Run env args w).1 = (updates w ++ [cur])%list).
Proof.
  intros Hreach Hn.
  assert (Hplan : noMerge c = true → roleName c ≠ "") by congruence.
  assert (Hu : updates (Run env args w).1 = (updates w ++ [merged c cur])%list).
  { rewrite (Run_submit env args w c client rid cur Hreach Hplan).
    destruct (BindingRuleUpdate client _); simpl; unfold planned;
      by rewrite Hn. }
  split; [exact Hu|].
  intros Hd Hr Hb Hs. rewrite Hu. do 2 f_equal.
  destruct Hreach as (Hp & _).
  assert (Hb' : isFlagSet (flags c) "role-bind-type" = false).
  { destruct (isFlagSet (flags c) "role-bind-type") eqn:E; [|done].
    destruct Hb. by apply (Parse_presence _ _ _ _ Hp). }
  assert (Hs' : isFlagSet (flags c) "selector" = false).
  { destruct (isFlagSet (flags c) "selector") eqn:E; [|done].
    destruct Hs. by apply (Parse_presence _ _ _ _ Hp). }
  unfold merged. rewrite Hd, Hr, Hb', Hs'. by destruct cur.
Qed.

Lemma merge_always_submits_witness :
  let args := [StringArg "id" "43cb"; BoolArg "meta" true] in
  let c := set_showMeta true (set_ruleID "43cb" init) in
  reaches_plan sample_env args c sample_client "43cb72df-aaa" sample_rule
  ∧ noMerge c = false
  ∧ updates (Run sample_env args empty_world).1 = [sample_rule].
Proof.
  intros args c.
  assert (Hreach : reaches_plan sample_env args c sample_client
                     "43cb72df-aaa" sample_rule).
  { repeat split; try reflexivity. discriminate. }
  assert (Hn : noMerge c = false) by reflexivity.
  do 2 (split; [assumption|]).
  destruct (merge_always_submits sample_env args empty_world c sample_client
              "43cb72df-aaa" sample_rule Hreach Hn) as [_ Hsame].
  apply Hsame; try reflexivity; unfold passed; by_computation.
Defined.
